(** * binance.js: the REST client's request dispatch and signing

    A shallow embedding of [src/rest-client.ts], [src/utils.ts],
    [src/errors.ts] and [src/models.ts], with the properties of the
    dispatch pipeline proved about it.

    Conventions of the embedding:
    - a JavaScript string is a [string] holding its UTF-8 bytes;
    - a JavaScript number is an integer [Z] (status codes, timestamps,
      order quantities given as numbers), meant below [2^53] in absolute
      value, where a JavaScript number is exact and prints all its digits;
      larger and non-integral numbers are outside the model;
    - plain key/value objects (params, data, headers) are association lists
      in insertion order, kept in a store indexed by references, so that
      aliasing between the caller and the client is visible; request-option
      objects are records with optional fields, in a store of their own;
    - [async] functions are run to completion: a rejected promise is a
      thrown error;
    - the libraries the client calls are modelled at their interface:
      Node's [crypto] by SHA-256 and HMAC as specified, [querystring] on
      primitive values, [url-join] on two parts, axios as a function from
      the request to what it settles to, together with the way it
      serialises query parameters; the debug logging is left out. *)

From Stdlib Require Import ZArith List Ascii String Bool Lia.
From Stdlib Require Import Strings.Byte.
From Stdlib Require Import DecimalString.
From stdpp Require Import base option gmap.
Import ListNotations.

#[local] Open Scope Z_scope.
#[local] Open Scope string_scope.

(* ------------------------------------------------------------------ *)
(** ** Node's [crypto]: SHA-256 (FIPS 180-4) and HMAC (RFC 2104)      *)
(* ------------------------------------------------------------------ *)

Module SHA256.

(** 32-bit words are integers reduced modulo [2^32]. *)
Definition wrap (x : Z) : Z := x mod 4294967296.

Definition add32 (x y : Z) : Z := wrap (x + y).

Definition rotr (n x : Z) : Z :=
  Z.lor (Z.shiftr x n) (wrap (Z.shiftl x (32 - n))).

Definition not32 (x : Z) : Z := 4294967295 - x.

Definition Ch (x y z : Z) : Z :=
  Z.lxor (Z.land x y) (Z.land (not32 x) z).

Definition Maj (x y z : Z) : Z :=
  Z.lxor (Z.lxor (Z.land x y) (Z.land x z)) (Z.land y z).

Definition bsig0 (x : Z) : Z :=
  Z.lxor (Z.lxor (rotr 2 x) (rotr 13 x)) (rotr 22 x).

Definition bsig1 (x : Z) : Z :=
  Z.lxor (Z.lxor (rotr 6 x) (rotr 11 x)) (rotr 25 x).

Definition ssig0 (x : Z) : Z :=
  Z.lxor (Z.lxor (rotr 7 x) (rotr 18 x)) (Z.shiftr x 3).

Definition ssig1 (x : Z) : Z :=
  Z.lxor (Z.lxor (rotr 17 x) (rotr 19 x)) (Z.shiftr x 10).

(** Round constants. *)
Definition K : list Z :=
  [ 0x428A2F98; 0x71374491; 0xB5C0FBCF; 0xE9B5DBA5;
    0x3956C25B; 0x59F111F1; 0x923F82A4; 0xAB1C5ED5;
    0xD807AA98; 0x12835B01; 0x243185BE; 0x550C7DC3;
    0x72BE5D74; 0x80DEB1FE; 0x9BDC06A7; 0xC19BF174;
    0xE49B69C1; 0xEFBE4786; 0x0FC19DC6; 0x240CA1CC;
    0x2DE92C6F; 0x4A7484AA; 0x5CB0A9DC; 0x76F988DA;
    0x983E5152; 0xA831C66D; 0xB00327C8; 0xBF597FC7;
    0xC6E00BF3; 0xD5A79147; 0x06CA6351; 0x14292967;
    0x27B70A85; 0x2E1B2138; 0x4D2C6DFC; 0x53380D13;
    0x650A7354; 0x766A0ABB; 0x81C2C92E; 0x92722C85;
    0xA2BFE8A1; 0xA81A664B; 0xC24B8B70; 0xC76C51A3;
    0xD192E819; 0xD6990624; 0xF40E3585; 0x106AA070;
    0x19A4C116; 0x1E376C08; 0x2748774C; 0x34B0BCB5;
    0x391C0CB3; 0x4ED8AA4A; 0x5B9CCA4F; 0x682E6FF3;
    0x748F82EE; 0x78A5636F; 0x84C87814; 0x8CC70208;
    0x90BEFFFA; 0xA4506CEB; 0xBEF9A3F7; 0xC67178F2 ].

(** The eight working variables / the chaining value. *)
Record regs : Type := Regs {
  ra : Z; rb : Z; rc : Z; rd : Z; re : Z; rf : Z; rg : Z; rh : Z
}.

Definition init : regs :=
  Regs 0x6A09E667 0xBB67AE85 0x3C6EF372 0xA54FF53A
       0x510E527F 0x9B05688C 0x1F83D9AB 0x5BE0CD19.

Definition byteZ (b : byte) : Z := Z.of_N (Byte.to_N b).

Definition Zbyte (z : Z) : byte :=
  match Byte.of_N (Z.to_N (z mod 256)) with
  | Some b => b
  | None => x00
  end.

(** Big-endian encodings. *)
Definition word_bytes (w : Z) : list byte :=
  [ Zbyte (Z.shiftr w 24); Zbyte (Z.shiftr w 16);
    Zbyte (Z.shiftr w 8); Zbyte w ].

Definition bytes_word (b0 b1 b2 b3 : byte) : Z :=
  Z.lor (Z.shiftl (byteZ b0) 24)
    (Z.lor (Z.shiftl (byteZ b1) 16)
       (Z.lor (Z.shiftl (byteZ b2) 8) (byteZ b3))).

Fixpoint words (bs : list byte) : list Z :=
  match bs with
  | b0 :: b1 :: b2 :: b3 :: rest => bytes_word b0 b1 b2 b3 :: words rest
  | _ => []
  end.

(** Padding: a [0x80] byte, zeros up to 56 modulo 64, then the bit length
    as a 64-bit big-endian integer. *)
Definition pad (msg : list byte) : list byte :=
  let len := Z.of_nat (List.length msg) in
  let zeros := Z.to_nat ((55 - len) mod 64) in
  let bits := 8 * len in
  msg ++ x80 :: List.repeat x00 zeros
      ++ word_bytes (Z.shiftr bits 32) ++ word_bytes bits.

(** Message schedule: [sched n w] extends the window [w] (most recent
    word first) by [n] words. *)
Fixpoint sched (n : nat) (w : list Z) : list Z :=
  match n with
  | O => w
  | S n' =>
      let x := add32 (add32 (ssig1 (nth 1 w 0)) (nth 6 w 0))
                     (add32 (ssig0 (nth 14 w 0)) (nth 15 w 0)) in
      sched n' (x :: w)
  end.

Definition schedule (block : list Z) : list Z :=
  List.rev (sched 48 (List.rev block)).

Definition round (r : regs) (kw : Z * Z) : regs :=
  let t1 := add32 (add32 (add32 (rh r) (bsig1 (re r)))
                         (add32 (Ch (re r) (rf r) (rg r)) (fst kw)))
                  (snd kw) in
  let t2 := add32 (bsig0 (ra r)) (Maj (ra r) (rb r) (rc r)) in
  Regs (add32 t1 t2) (ra r) (rb r) (rc r)
       (add32 (rd r) t1) (re r) (rf r) (rg r).

Definition compress (h : regs) (block : list Z) : regs :=
  let r := fold_left round (combine K (schedule block)) h in
  Regs (add32 (ra h) (ra r)) (add32 (rb h) (rb r))
       (add32 (rc h) (rc r)) (add32 (rd h) (rd r))
       (add32 (re h) (re r)) (add32 (rf h) (rf r))
       (add32 (rg h) (rg r)) (add32 (rh h) (rh r)).

(** Absorb the padded message, sixteen words at a time. *)
Fixpoint absorb (fuel : nat) (h : regs) (ws : list Z) : regs :=
  match fuel, ws with
  | S fuel', _ :: _ => absorb fuel' (compress h (firstn 16 ws)) (skipn 16 ws)
  | _, _ => h
  end.

Definition regs_bytes (r : regs) : list byte :=
  word_bytes (ra r) ++ word_bytes (rb r) ++ word_bytes (rc r)
    ++ word_bytes (rd r) ++ word_bytes (re r) ++ word_bytes (rf r)
    ++ word_bytes (rg r) ++ word_bytes (rh r).

Definition digest (msg : list byte) : list byte :=
  let ws := words (pad msg) in
  regs_bytes (absorb (List.length ws) init ws).

End SHA256.

Module HMAC.

Definition block_size : nat := 64.

Definition xor_byte (c : Z) (b : byte) : byte :=
  SHA256.Zbyte (Z.lxor c (SHA256.byteZ b)).

(** Keys longer than a block are hashed; the result is zero-padded to a
    block. *)
Definition key_block (key : list byte) : list byte :=
  let k := if Nat.ltb block_size (List.length key)
           then SHA256.digest key else key in
  k ++ List.repeat x00 (block_size - List.length k).

Definition hmac_sha256 (key msg : list byte) : list byte :=
  let kb := key_block key in
  SHA256.digest (List.map (xor_byte 0x5C) kb
    ++ SHA256.digest (List.map (xor_byte 0x36) kb ++ msg)).

End HMAC.

(** Lowercase hexadecimal rendering of a byte string. *)
Definition hex_digit (n : N) : ascii :=
  match n with
  | 0%N => "0" | 1%N => "1" | 2%N => "2" | 3%N => "3"
  | 4%N => "4" | 5%N => "5" | 6%N => "6" | 7%N => "7"
  | 8%N => "8" | 9%N => "9" | 10%N => "a" | 11%N => "b"
  | 12%N => "c" | 13%N => "d" | 14%N => "e" | _ => "f"
  end%char.

Fixpoint to_hex (bs : list byte) : string :=
  match bs with
  | [] => EmptyString
  | b :: rest =>
      String (hex_digit (Byte.to_N b / 16))
        (String (hex_digit (Byte.to_N b mod 16)) (to_hex rest))
  end.

(* ------------------------------------------------------------------ *)
(** ** JavaScript values and plain objects                             *)
(* ------------------------------------------------------------------ *)

(** References into the object store. *)
Definition loc : Type := positive.

Inductive value : Type :=
| VUndefined
| VNull
| VBool (b : bool)
| VNum (n : Z)
| VStr (s : string)
| VRef (l : loc).

(** A plain object: its own enumerable properties in insertion order, each
    key once.  (Keys that look like array indices, which JavaScript
    enumerates first, only arise here from [explode], in ascending order.) *)
Definition obj : Type := list (string * value).

Fixpoint obj_get (k : string) (o : obj) : option value :=
  match o with
  | [] => None
  | (k', v) :: o' => if String.eqb k' k then Some v else obj_get k o'
  end.

(** [o[k] = v]: an existing key keeps its position, a new key goes last. *)
Fixpoint obj_set (k : string) (v : value) (o : obj) : obj :=
  match o with
  | [] => [(k, v)]
  | (k', v') :: o' =>
      if String.eqb k' k then (k, v) :: o' else (k', v') :: obj_set k v o'
  end.

(** [delete o[k]]. *)
Fixpoint obj_delete (k : string) (o : obj) : obj :=
  match o with
  | [] => []
  | (k', v) :: o' =>
      if String.eqb k' k then obj_delete k o' else (k', v) :: obj_delete k o'
  end.

(** [Object.assign(target, source)] on the property lists. *)
Definition obj_assign (target source : obj) : obj :=
  fold_left (fun t kv => obj_set (fst kv) (snd kv) t) source target.

(** ['' + n] for an integer [n] that a JavaScript number holds exactly
    (below [2^53] in absolute value): all its digits, with the sign. *)
Definition string_of_Z (n : Z) : string :=
  NilZero.string_of_int (Z.to_int n).

(** The own properties of a string primitive, as [Object.assign] sees
    them: one single-character string per index. *)
Fixpoint explode_from (i : Z) (s : string) : obj :=
  match s with
  | EmptyString => []
  | String c s' =>
      (string_of_Z i, VStr (String c EmptyString)) :: explode_from (i + 1) s'
  end.

Definition explode (s : string) : obj := explode_from 0 s.

(* ------------------------------------------------------------------ *)
(** ** Node's [querystring.stringify]                                  *)
(* ------------------------------------------------------------------ *)

Module Querystring.

Definition stringifyPrimitive (v : value) : string :=
  match v with
  | VStr s => s
  | VNum n => string_of_Z n
  | VBool true => "true"
  | VBool false => "false"
  | _ => EmptyString
  end.

(** Characters left alone by [querystring.escape]:
    [A-Z a-z 0-9 - _ . ! ~ * ' ( )]. *)
Definition unreserved (c : ascii) : bool :=
  let n := N_of_ascii c in
  ((65 <=? n) && (n <=? 90))%N || ((97 <=? n) && (n <=? 122))%N
  || ((48 <=? n) && (n <=? 57))%N
  || existsb (Ascii.eqb c)
       ["-"; "_"; "."; "!"; "~"; "*"; "'"; "("; ")"]%char.

Definition upper_hex_digit (n : N) : ascii :=
  match n with
  | 0%N => "0" | 1%N => "1" | 2%N => "2" | 3%N => "3"
  | 4%N => "4" | 5%N => "5" | 6%N => "6" | 7%N => "7"
  | 8%N => "8" | 9%N => "9" | 10%N => "A" | 11%N => "B"
  | 12%N => "C" | 13%N => "D" | 14%N => "E" | _ => "F"
  end%char.

(** Percent-encoding, byte by byte. *)
Fixpoint escape (s : string) : string :=
  match s with
  | EmptyString => EmptyString
  | String c s' =>
      if unreserved c then String c (escape s')
      else
        let n := N_of_ascii c in
        String "%" (String (upper_hex_digit (n / 16))
                      (String (upper_hex_digit (n mod 16)) (escape s')))
  end.

Definition field (kv : string * value) : string :=
  escape (fst kv) ++ "=" ++ escape (stringifyPrimitive (snd kv)).

(** [stringify(obj)] with the default separators.  Array-valued
    properties are not modelled: a reference stringifies as the empty
    string, as a nested object does. *)
Definition stringify (o : obj) : string :=
  String.concat "&" (List.map field o).

End Querystring.

Definition qstringify : obj -> string := Querystring.stringify.

(* ------------------------------------------------------------------ *)
(** ** [url-join]                                                      *)
(* ------------------------------------------------------------------ *)

(** [url-join] 2.0 joins its arguments with a slash and normalises the
    result by four replacements made over the whole string, one after the
    other.  They are written here as left-to-right scans, as a global
    [replace] proceeds.  (White space and line ends are taken to be those
    of ASCII.) *)

(** [str.replace(/:\//g, '://')]. *)
Fixpoint protocol_slashes (s : string) : string :=
  match s with
  | EmptyString => EmptyString
  | String c s' =>
      if Ascii.eqb c ":" then
        match s' with
        | String d s'' =>
            if Ascii.eqb d "/"
            then String ":" (String "/" (String "/" (protocol_slashes s'')))
            else String c (protocol_slashes s')
        | EmptyString => String c EmptyString
        end
      else String c (protocol_slashes s')
  end.

(** The characters of [\s] and the line ends that [.] does not match. *)
Definition white_space (c : ascii) : bool :=
  let n := N_of_ascii c in ((9 <=? n) && (n <=? 13))%N || (n =? 32)%N.

Definition line_end (c : ascii) : bool :=
  Ascii.eqb c "010" || Ascii.eqb c "013".

(** [str.replace(/([^:\s])\/+/g, '$1/')]: a run of slashes after a
    character other than a colon or white space becomes one slash.
    [dropping] says that the scan is inside such a run, whose one slash
    has been written. *)
Fixpoint collapse_slashes (dropping : bool) (s : string) : string :=
  match s with
  | EmptyString => EmptyString
  | String c s' =>
      if dropping && Ascii.eqb c "/" then collapse_slashes true s'
      else if Ascii.eqb c ":" || white_space c
      then String c (collapse_slashes false s')
      else
        match s' with
        | String d _ =>
            if Ascii.eqb d "/"
            then String c (String "/" (collapse_slashes true s'))
            else String c (collapse_slashes false s')
        | EmptyString => String c EmptyString
        end
  end.

(** [str.replace(/\/(\?|&|#[^!])/g, '$1')]: a slash right before the
    parameters or the hash is removed. *)
Fixpoint slash_before_parameters (s : string) : string :=
  match s with
  | EmptyString => EmptyString
  | String c s1 =>
      if Ascii.eqb c "/" then
        match s1 with
        | String d s2 =>
            if Ascii.eqb d "?" || Ascii.eqb d "&"
            then String d (slash_before_parameters s2)
            else if Ascii.eqb d "#" then
              match s2 with
              | String e s3 =>
                  if Ascii.eqb e "!" then String c (slash_before_parameters s1)
                  else String d (String e (slash_before_parameters s3))
              | EmptyString => String c (slash_before_parameters s1)
              end
            else String c (slash_before_parameters s1)
        | EmptyString => String c EmptyString
        end
      else String c (slash_before_parameters s1)
  end.

Fixpoint question_mark_ahead (s : string) : bool :=
  match s with
  | EmptyString => false
  | String c s' =>
      if line_end c then false
      else Ascii.eqb c "?" || question_mark_ahead s'
  end.

(** [str.replace(/(\?.+)\?/g, '$1&')]: on each line, the last question
    mark becomes an ampersand when it comes after the first one with
    something in between.  [seen] counts how far the match has got: [0]
    before the first question mark of the line, [1] right after it, [2]
    from then on. *)
Fixpoint later_question_marks (seen : nat) (s : string) : string :=
  match s with
  | EmptyString => EmptyString
  | String c s' =>
      if line_end c then String c (later_question_marks 0 s')
      else
        match seen with
        | O => String c (later_question_marks
                           (if Ascii.eqb c "?" then 1 else 0) s')
        | S O => String c (later_question_marks 2 s')
        | _ =>
            if Ascii.eqb c "?" && negb (question_mark_ahead s')
            then String "&" (later_question_marks 2 s')
            else String c (later_question_marks 2 s')
        end
  end.

Definition normalize (str : string) : string :=
  later_question_marks 0
    (slash_before_parameters
       (collapse_slashes false (protocol_slashes str))).

(** [url(base, path)] for two parts. *)
Definition url_join (base path : string) : string :=
  normalize (base ++ "/" ++ path).

(* ------------------------------------------------------------------ *)
(** ** Node's [crypto.createHmac] and [src/utils.ts]                   *)
(* ------------------------------------------------------------------ *)

Module Crypto.

Inductive algorithm : Type := sha256.
Inductive encoding : Type := hex.

(** [new Buffer(str)]: the UTF-8 bytes of the string, nothing decoded. *)
Definition Buffer (s : string) : list byte := list_byte_of_string s.

Record Hmac : Type := mkHmac {
  hmac_alg : algorithm;
  hmac_key : list byte;
  hmac_input : list byte
}.

Definition createHmac (alg : algorithm) (key : list byte) : Hmac :=
  mkHmac alg key [].

(** [hmac.update(str)] appends the UTF-8 bytes of [str]. *)
Definition update (h : Hmac) (data : string) : Hmac :=
  mkHmac (hmac_alg h) (hmac_key h)
    (hmac_input h ++ list_byte_of_string data).

Definition digest (h : Hmac) (enc : encoding) : string :=
  match hmac_alg h, enc with
  | sha256, hex => to_hex (HMAC.hmac_sha256 (hmac_key h) (hmac_input h))
  end.

End Crypto.

Module utils.

(** [getHmac(input, apisecret)] (the debug logging is left out). *)
Definition getHmac (input apisecret : string) : string :=
  Crypto.digest
    (Crypto.update
       (Crypto.createHmac Crypto.sha256 (Crypto.Buffer apisecret))
       input)
    Crypto.hex.

End utils.

(* ------------------------------------------------------------------ *)
(** ** Response payloads                                               *)
(* ------------------------------------------------------------------ *)

#[local] Set Warnings "-register-all".

Inductive json : Type :=
| JNull
| JBool (b : bool)
| JNum (n : Z)
| JStr (s : string)
| JArr (items : list json)
| JObj (fields : list (string * json)).

Fixpoint assoc_json (k : string) (fs : list (string * json)) : option json :=
  match fs with
  | [] => None
  | (k', v) :: fs' => if String.eqb k' k then Some v else assoc_json k fs'
  end.

(** [j.k] on a non-null value; [None] is [undefined]. *)
Definition json_prop (k : string) (j : json) : option json :=
  match j with
  | JObj fs => assoc_json k fs
  | _ => None
  end.

(** [j[i]] on a non-null value. *)
Definition json_index (i : nat) (j : json) : option json :=
  match j with
  | JArr items => List.nth_error items i
  | JStr s => match String.get i s with
              | Some c => Some (JStr (String c EmptyString))
              | None => None
              end
  | JObj fs => assoc_json (string_of_Z (Z.of_nat i)) fs
  | _ => None
  end.

(* ------------------------------------------------------------------ *)
(** ** [src/models.ts]                                                 *)
(* ------------------------------------------------------------------ *)

Module Models.

Inductive EndpointSecurity : Type := NONE | API_KEY | SIGNED.

(** The string literal behind each security level. *)
Definition security_name (s : EndpointSecurity) : string :=
  match s with
  | NONE => "NONE"
  | API_KEY => "API-KEY"
  | SIGNED => "SIGNED"
  end.

Inductive Method : Type := GET | PUT | POST | PATCH | OPTIONS | DELETE.

Record Endpoint : Type := mkEndpoint {
  url : string;
  method : option Method;
  security : EndpointSecurity
}.

Record OrderBookEntry : Type := mkOrderBookEntry {
  price : option json;
  quantity : option json
}.

Record OrderBook : Type := mkOrderBook {
  lastUpdateId : option json;
  bids : list OrderBookEntry;
  asks : list OrderBookEntry
}.

End Models.

#[global] Instance security_eq_dec : EqDecision Models.EndpointSecurity.
Proof. solve_decision. Defined.

#[global] Instance method_eq_dec : EqDecision Models.Method.
Proof. solve_decision. Defined.

(* ------------------------------------------------------------------ *)
(** ** The axios interface                                             *)
(* ------------------------------------------------------------------ *)

Module Axios.

(** A request body: the caller's object, or text already serialised. *)
Inductive body : Type :=
| BodyRef (l : loc)
| BodyText (s : string).

(** The value of the [timeout] property when the property is there: a
    number of milliseconds, or [undefined]. *)
Inductive setting : Type :=
| number (n : Z)
| undefined.


(** [AxiosRequestConfig]: an absent property is [None].  [others] holds
    the settings the client never looks at.  A [timeout] that is present
    with the value [undefined] is told apart from an absent one, because
    [Object.assign] copies it like any other value.  For the properties
    that [http] reads ([headers], [params], [data]) or overwrites ([url],
    [method], [validateStatus]) the two are one: [http] tests them with
    [||], copies them with [Object.assign({}, ...)] or deletes them. *)
Record AxiosRequestConfig : Type := mkConfig {
  url : option string;
  method : option Models.Method;
  headers : option loc;
  params : option loc;
  data : option body;
  timeout : option setting;
  validateStatus : option (Z -> bool);
  others : obj
}.

Definition empty : AxiosRequestConfig :=
  mkConfig None None None None None None None [].

Definition override {A} (target source : option A) : option A :=
  match source with
  | Some x => Some x
  | None => target
  end.

(** [Object.assign(target, source)] on configurations: the new content
    of [target]. *)
Definition assign (target source : AxiosRequestConfig) : AxiosRequestConfig :=
  mkConfig (override (url target) (url source))
           (override (method target) (method source))
           (override (headers target) (headers source))
           (override (params target) (params source))
           (override (data target) (data source))
           (override (timeout target) (timeout source))
           (override (validateStatus target) (validateStatus source))
           (obj_assign (others target) (others source)).

Definition delete_data (c : AxiosRequestConfig) : AxiosRequestConfig :=
  mkConfig (url c) (method c) (headers c) (params c) None
           (timeout c) (validateStatus c) (others c).

Definition delete_params (c : AxiosRequestConfig) : AxiosRequestConfig :=
  mkConfig (url c) (method c) (headers c) None (data c)
           (timeout c) (validateStatus c) (others c).

Definition set_params (l : loc) (c : AxiosRequestConfig) : AxiosRequestConfig :=
  mkConfig (url c) (method c) (headers c) (Some l) (data c)
           (timeout c) (validateStatus c) (others c).

Definition set_data (b : body) (c : AxiosRequestConfig) : AxiosRequestConfig :=
  mkConfig (url c) (method c) (headers c) (params c) (Some b)
           (timeout c) (validateStatus c) (others c).

Record AxiosResponse : Type := mkResponse {
  response_data : json;
  status : Z;
  statusText : string
}.

(** What a request rejects with: an error object, as axios makes them,
    with its name, message and stack. *)
Record AxiosError : Type := mkAxiosError {
  error_name : string;
  error_message : string;
  error_stack : string
}.

Inductive AxiosResult : Type :=
| Resolved (r : AxiosResponse)
| Rejected (e : AxiosError).

(** An instance keeps its own copy of the configuration it was created
    with. *)
Record AxiosInstance : Type := mkInstance {
  defaults : AxiosRequestConfig
}.

Definition create (config : AxiosRequestConfig) : AxiosInstance :=
  mkInstance config.

(** [encode] of axios' [helpers/buildURL.js]: [encodeURIComponent], after
    which [%40 %3A %24 %2C %5B %5D] are turned back into [@ : $ , [ ]] and
    [%20] into [+].  An escape stands for one byte, so the replacements
    are made here byte by byte. *)
Definition kept (c : ascii) : bool :=
  existsb (Ascii.eqb c) ["@"; ":"; "$"; ","; "["; "]"]%char.

Fixpoint encode (s : string) : string :=
  match s with
  | EmptyString => EmptyString
  | String c s' =>
      if Ascii.eqb c " " then String "+" (encode s')
      else if kept c || Querystring.unreserved c then String c (encode s')
      else
        let n := N_of_ascii c in
        String "%" (String (Querystring.upper_hex_digit (n / 16))
                      (String (Querystring.upper_hex_digit (n mod 16))
                         (encode s')))
  end.

(** The [key=value] part [buildURL] makes of one property: none for a
    value that is [null] or [undefined].  Arrays, dates and nested
    objects, which it expands or turns into JSON, are not modelled. *)
Definition part (kv : string * value) : option (list string) :=
  let pair := fun text => Some [encode (fst kv) ++ "=" ++ encode text] in
  match snd kv with
  | VUndefined | VNull => Some []
  | VBool true => pair "true"
  | VBool false => pair "false"
  | VNum n => pair (string_of_Z n)
  | VStr s => pair s
  | VRef _ => None
  end.

Fixpoint parts (o : obj) : option (list string) :=
  match o with
  | [] => Some []
  | kv :: o' =>
      match part kv, parts o' with
      | Some p, Some ps => Some (p ++ ps)%list
      | _, _ => None
      end
  end.

(** [serializedParams] of [buildURL] with the default serialiser:
    [parts.join('&')]. *)
Definition serializedParams (o : obj) : option string :=
  match parts o with
  | Some ps => Some (String.concat "&" ps)
  | None => None
  end.

(** The settings by which a caller replaces what axios does to the
    parameters, the body or the whole request. *)
Definition hooks : list string :=
  ["paramsSerializer"; "transformRequest"; "adapter"].

Definition is_set (k : string) (c : AxiosRequestConfig) : bool :=
  match obj_get k (others c) with
  | Some _ => true
  | None => false
  end.

(** The request goes through axios as it comes: no hook is set, on the
    request or on the instance, and the instance has no parameters of its
    own, which axios would merge into those of the request. *)
Definition default_pipeline (inst : AxiosInstance) (c : AxiosRequestConfig)
  : bool :=
  forallb (fun k => negb (is_set k c) && negb (is_set k (defaults inst))) hooks
  && match params (defaults inst) with
     | Some _ => false
     | None => true
     end.

End Axios.

(* ------------------------------------------------------------------ *)
(** ** [src/errors.ts]                                                 *)
(* ------------------------------------------------------------------ *)

Module Errors.

Inductive t : Type :=
| HttpError (message stack : string)
| MalformedRequestError (response : json) (statusText : string) (statusCode : Z)
| RequestResultUnknownError (response : json) (statusText : string) (statusCode : Z)
| MissingCredentialsError (message : string)
| InternalRequestError (response : json) (statusText : string) (statusCode : Z)
| TypeError.  (* the runtime's own error, not one of errors.ts *)

(** [Error.prototype.toString]. *)
Definition render (name message : string) : string :=
  match name, message with
  | _, EmptyString => name
  | EmptyString, _ => message
  | _, _ => name ++ ": " ++ message
  end.

(** [new HttpError(e)]: [super(e)] stringifies the cause into the
    message, and the cause's stack is taken over. *)
Definition new_HttpError (e : Axios.AxiosError) : t :=
  HttpError (render (Axios.error_name e) (Axios.error_message e))
            (Axios.error_stack e).

Definition name (e : t) : string :=
  match e with
  | HttpError _ _ => "BinanceHttpError"
  | MalformedRequestError _ _ _ => "BinanceMalformedRequestError"
  | RequestResultUnknownError _ _ _ => "BinanceRequestResultUnknownError"
  | MissingCredentialsError _ => "BinanceMissingCredentialsError"
  | InternalRequestError _ _ _ => "BinanceInternalRequestError"
  | TypeError => "TypeError"
  end.

(** The double quote of the template literals. *)
Definition quote : string := String (ascii_of_nat 34) EmptyString.

(** The tail shared by the three [toString] methods of [errors.ts]:
    [Status code ${code}. Status text "${text}"]. *)
Definition status_tail (statusText : string) (statusCode : Z) : string :=
  " Status code " ++ string_of_Z statusCode ++ ". Status text "
  ++ quote ++ statusText ++ quote.

(** [e.toString()]: the three classes with a status define their own, the
    others inherit [Error.prototype.toString]; the status classes call
    [super()] without a message. *)
Definition toString (e : t) : string :=
  match e with
  | HttpError message _ => render (name e) message
  | MissingCredentialsError message => render (name e) message
  | MalformedRequestError _ statusText statusCode =>
      name e ++ ": Binance rejected request for formatting reasons."
      ++ status_tail statusText statusCode
  | RequestResultUnknownError _ statusText statusCode =>
      name e ++ ": Binance could not determine request result."
      ++ status_tail statusText statusCode
  | InternalRequestError _ statusText statusCode =>
      name e ++ ": Binance encountered error in processing request."
      ++ status_tail statusText statusCode
  | TypeError => name e
  end.

End Errors.

(* ------------------------------------------------------------------ *)
(** ** The program state and the monad of client code                  *)
(* ------------------------------------------------------------------ *)

(** A request as handed to [axios.request]: the instance, the request
    options, and the objects they refer to at that moment. *)
Record sent : Type := mkSent {
  sent_by : Axios.AxiosInstance;
  sent_config : Axios.AxiosRequestConfig;
  sent_objs : gmap loc obj
}.

Record state : Type := mkState {
  objs : gmap loc obj;                        (* plain objects *)
  cfgs : gmap loc Axios.AxiosRequestConfig;   (* request-option objects *)
  axios_defaults : Axios.AxiosRequestConfig;  (* the module's AXIOS_DEFAULTS object *)
  now : Z;                                    (* what Date.now() reads *)
  wire : list sent                            (* requests made so far *)
}.

Inductive result (A : Type) : Type :=
| Ok (a : A)
| Throw (e : Errors.t).

Arguments Ok {A} a.
Arguments Throw {A} e.

Definition M (A : Type) : Type := state -> state * result A.

Definition ret {A} (a : A) : M A := fun s => (s, Ok a).

Definition throw {A} (e : Errors.t) : M A := fun s => (s, Throw e).

Definition bind {A B} (m : M A) (k : A -> M B) : M B :=
  fun s =>
    match m s with
    | (s', Ok a) => k a s'
    | (s', Throw e) => (s', Throw e)
    end.

Notation "x <- m ;; k" := (bind m (fun x => k))
  (at level 100, m at level 99, right associativity).
Notation "m ;;; k" := (bind m (fun _ => k))
  (at level 100, right associativity).

Definition set_objs (f : gmap loc obj -> gmap loc obj) (s : state) : state :=
  mkState (f (objs s)) (cfgs s) (axios_defaults s) (now s) (wire s).

Definition set_cfgs
    (f : gmap loc Axios.AxiosRequestConfig -> gmap loc Axios.AxiosRequestConfig)
    (s : state) : state :=
  mkState (objs s) (f (cfgs s)) (axios_defaults s) (now s) (wire s).

(** Dereferencing; a reference to nothing reads as an empty object. *)
Definition deref (h : gmap loc obj) (l : loc) : obj := default [] (h !! l).

Definition deref_cfg (h : gmap loc Axios.AxiosRequestConfig) (l : loc)
  : Axios.AxiosRequestConfig := default Axios.empty (h !! l).

Definition read_obj (l : loc) : M obj := fun s => (s, Ok (deref (objs s) l)).

Definition read_cfg (l : loc) : M Axios.AxiosRequestConfig :=
  fun s => (s, Ok (deref_cfg (cfgs s) l)).

(** A new object literal. *)
Definition new_obj (o : obj) : M loc :=
  fun s => let l := fresh (dom (objs s)) in (set_objs <[l := o]> s, Ok l).

Definition new_cfg (c : Axios.AxiosRequestConfig) : M loc :=
  fun s => let l := fresh (dom (cfgs s)) in (set_cfgs <[l := c]> s, Ok l).

(** [o[k] = v] through a reference. *)
Definition set_prop (l : loc) (k : string) (v : value) : M unit :=
  fun s => (set_objs <[l := obj_set k v (deref (objs s) l)]> s, Ok tt).

Definition modify_cfg (l : loc)
    (f : Axios.AxiosRequestConfig -> Axios.AxiosRequestConfig) : M unit :=
  fun s => (set_cfgs <[l := f (deref_cfg (cfgs s) l)]> s, Ok tt).

Definition Date_now : M Z := fun s => (s, Ok (now s)).

(** JavaScript truthiness of an optional string: [undefined] and the empty
    string are falsy. *)
Definition truthy (x : option string) : bool :=
  match x with
  | Some (String _ _) => true
  | _ => false
  end.

(** [Object.assign({}, src)]: the own properties of the source, if any. *)
Definition props_of_ref (h : gmap loc obj) (src : option loc) : obj :=
  match src with
  | Some l => obj_assign [] (deref h l)
  | None => []
  end.

Definition props_of_body (h : gmap loc obj) (src : option Axios.body) : obj :=
  match src with
  | Some (Axios.BodyRef l) => obj_assign [] (deref h l)
  | Some (Axios.BodyText t) => obj_assign [] (explode t)
  | None => []
  end.

Definition assign_new_from_ref (src : option loc) : M loc :=
  fun s => new_obj (props_of_ref (objs s) src) s.

Definition assign_new_from_body (src : option Axios.body) : M loc :=
  fun s => new_obj (props_of_body (objs s) src) s.

Definition lift {A} (r : result A) : M A := fun s => (s, r).

(* ------------------------------------------------------------------ *)
(** ** [src/rest-client.ts]                                            *)
(* ------------------------------------------------------------------ *)

Record RestClientOptions : Type := mkOptions {
  apikey : option string;
  apisecret : option string;
  axiosOptions : option Axios.AxiosRequestConfig
}.

Record RestClient : Type := mkClient {
  options : RestClientOptions;
  axios : Axios.AxiosInstance
}.

(** The literal the module initialises [AXIOS_DEFAULTS] with. *)
Definition AXIOS_DEFAULTS : Axios.AxiosRequestConfig :=
  Axios.mkConfig None None None None None (Some (Axios.number 15000)) None [].

(** The state right after the module is loaded. *)
Definition module_loaded (clock : Z) : state :=
  mkState ∅ ∅ AXIOS_DEFAULTS clock [].

(** [Object.assign(AXIOS_DEFAULTS, source)]: writes into the module's
    object and returns it. *)
Definition assign_AXIOS_DEFAULTS (source : Axios.AxiosRequestConfig)
  : M Axios.AxiosRequestConfig :=
  fun s =>
    let merged := Axios.assign (axios_defaults s) source in
    (mkState (objs s) (cfgs s) merged (now s) (wire s), Ok merged).

(** [new RestClient(options)] (the logging interceptors are left out). *)
Definition new_RestClient (opts : option RestClientOptions) : M RestClient :=
  let options := default (mkOptions None None None) opts in
  config <- assign_AXIOS_DEFAULTS (default Axios.empty (axiosOptions options)) ;;
  ret (mkClient options (Axios.create config)).

Definition API_BASE : string := "https://api.binance.com/api".

(** [http], lines 50-64: the method, the header container, the working
    copy of the caller's parameters, and the two [delete]s.  Yields the
    references held by [options], [headers] and [inputs]. *)
Definition stage (httpMethod : Models.Method) (opts : option loc)
  : M (loc * loc * loc) :=
  (* options: AxiosRequestConfig = {} *)
  options_ref <- match opts with
                 | Some l => ret l
                 | None => new_cfg Axios.empty
                 end ;;
  given <- read_cfg options_ref ;;
  (* options.headers || {} *)
  headers <- match Axios.headers given with
             | Some h => ret h
             | None => new_obj []
             end ;;
  inputs <- (if decide (httpMethod = Models.GET)
             then assign_new_from_ref (Axios.params given)
             else assign_new_from_body (Axios.data given)) ;;
  modify_cfg options_ref Axios.delete_data ;;;
  modify_cfg options_ref Axios.delete_params ;;;
  ret (options_ref, headers, inputs).

(** [http], lines 67-75. *)
Definition require_apikey (this : RestClient) (endpoint : Models.Endpoint)
    (headers : loc) : M unit :=
  if decide (Models.security endpoint = Models.NONE) then ret tt
  else if negb (truthy (apikey (options this))) then
    throw (Errors.MissingCredentialsError
             (Models.security_name (Models.security endpoint)
              ++ " HTTP endpoints require opts.apikey to be provided"))
  else
    set_prop headers "X-MBX-APIKEY"
             (VStr (default EmptyString (apikey (options this)))).

(** [http], lines 78-90. *)
Definition sign_inputs (this : RestClient) (endpoint : Models.Endpoint)
    (inputs : loc) : M unit :=
  if decide (Models.security endpoint = Models.SIGNED) then
    if negb (truthy (apisecret (options this))) then
      throw (Errors.MissingCredentialsError
               (Models.security_name (Models.security endpoint)
                ++ " HTTP endpoints require opts.apisecret to be provided"))
    else
      t <- Date_now ;;
      set_prop inputs "timestamp" (VNum t) ;;;
      o <- read_obj inputs ;;
      set_prop inputs "signature"
               (VStr (utils.getHmac (qstringify o)
                        (default EmptyString (apisecret (options this)))))
  else ret tt.

(** [http], lines 94-112: [Object.assign(options, {...})], then the
    parameters as query or as body.  [requestOptions] is [options]
    itself. *)
Definition build_request (endpoint : Models.Endpoint)
    (httpMethod : Models.Method) (options_ref headers inputs : loc) : M unit :=
  let fullUrl := url_join API_BASE (Models.url endpoint) in
  modify_cfg options_ref
    (fun c => Axios.assign c
       (Axios.mkConfig (Some fullUrl) (Some httpMethod) (Some headers)
                       None None None (Some (fun _ => true)) [])) ;;;
  if decide (httpMethod = Models.GET) then
    modify_cfg options_ref (Axios.set_params inputs)
  else
    o <- read_obj inputs ;;
    modify_cfg options_ref (Axios.set_data (Axios.BodyText (qstringify o))).

(** [http], lines 123-131: the status tests, in the order of the source. *)
Definition classify (response : Axios.AxiosResponse)
  : result Axios.AxiosResponse :=
  let status := Axios.status response in
  if ((400 <=? status) && (status <=? 499))%Z then
    Throw (Errors.MalformedRequestError
             (Axios.response_data response) (Axios.statusText response) status)
  else if (status =? 504)%Z then
    Throw (Errors.RequestResultUnknownError
             (Axios.response_data response) (Axios.statusText response) status)
  else if ((500 <=? status) && (status <=? 599))%Z then
    Throw (Errors.InternalRequestError
             (Axios.response_data response) (Axios.statusText response) status)
  else
    Ok response.

(** What [http] makes of the settled request: a rejection is wrapped, a
    response is classified. *)
Definition settle (settled : Axios.AxiosResult) : result Axios.AxiosResponse :=
  match settled with
  | Axios.Rejected e => Throw (Errors.new_HttpError e)
  | Axios.Resolved response => classify response
  end.

Section Dispatch.

(** The network behind axios: what a request settles to. *)
Variable net :
  Axios.AxiosInstance -> Axios.AxiosRequestConfig -> gmap loc obj
  -> Axios.AxiosResult.

(** [this.axios.request(requestOptions)], awaited. *)
Definition axios_request (inst : Axios.AxiosInstance) (requestOptions : loc)
  : M Axios.AxiosResult :=
  fun s =>
    let c := deref_cfg (cfgs s) requestOptions in
    (mkState (objs s) (cfgs s) (axios_defaults s) (now s)
             (wire s ++ [mkSent inst c (objs s)]),
     Ok (net inst c (objs s))).

(** [http], lines 114-131. *)
Definition transmit (this : RestClient) (requestOptions : loc)
  : M Axios.AxiosResponse :=
  settled <- axios_request (axios this) requestOptions ;;
  lift (settle settled).

Definition http (this : RestClient) (endpoint : Models.Endpoint)
    (opts : option loc) : M Axios.AxiosResponse :=
  let httpMethod := default Models.GET (Models.method endpoint) in
  staged <- stage httpMethod opts ;;
  let '(options_ref, headers, inputs) := staged in
  require_apikey this endpoint headers ;;;
  sign_inputs this endpoint inputs ;;;
  build_request endpoint httpMethod options_ref headers inputs ;;;
  transmit this options_ref.

End Dispatch.

Module ENDPOINTS.
Import Models.
Definition PING := mkEndpoint "/v1/ping" None NONE.
Definition TIME := mkEndpoint "/v1/time" None NONE.
Definition ALLPRICES := mkEndpoint "/v1/ticker/allPrices" None NONE.
Definition ORDERBOOK := mkEndpoint "/v1/depth" None NONE.
Definition ORDER := mkEndpoint "/v3/order" (Some POST) SIGNED.
Definition OPENORDERS := mkEndpoint "/v3/openOrders" None SIGNED.
Definition ALLORDERS := mkEndpoint "/v3/allOrders" None SIGNED.
Definition ACCOUNT := mkEndpoint "/v3/account" None SIGNED.
End ENDPOINTS.

(** The callback of [getOrderBook]'s two [map] calls; indexing [null]
    throws. *)
Definition reshape_entry (entry : json) : result Models.OrderBookEntry :=
  match entry with
  | JNull => Throw Errors.TypeError
  | _ => Ok (Models.mkOrderBookEntry (json_index 0 entry) (json_index 1 entry))
  end.

(** [Array.prototype.map] with a callback that may throw. *)
Fixpoint map_entries (items : list json) : result (list Models.OrderBookEntry) :=
  match items with
  | [] => Ok []
  | entry :: rest =>
      match reshape_entry entry with
      | Throw e => Throw e
      | Ok x =>
          match map_entries rest with
          | Throw e => Throw e
          | Ok xs => Ok (x :: xs)
          end
      end
  end.

(** [x.map(...)] where [x] came out of a property read: anything but an
    array has no [map]. *)
Definition map_side (side : option json) : result (list Models.OrderBookEntry) :=
  match side with
  | Some (JArr items) => map_entries items
  | _ => Throw Errors.TypeError
  end.

(** The object literal [getOrderBook] returns, built from [ret.data]. *)
Definition reshape_order_book (response : json) : result Models.OrderBook :=
  match response with
  | JNull => Throw Errors.TypeError
  | _ =>
      match map_side (json_prop "bids" response) with
      | Throw e => Throw e
      | Ok bids =>
          match map_side (json_prop "asks" response) with
          | Throw e => Throw e
          | Ok asks =>
              Ok (Models.mkOrderBook (json_prop "lastUpdateId" response) bids asks)
          end
      end
  end.

Definition optional_number (n : option Z) : value :=
  match n with
  | Some z => VNum z
  | None => VUndefined
  end.

Section Methods.

Variable net :
  Axios.AxiosInstance -> Axios.AxiosRequestConfig -> gmap loc obj
  -> Axios.AxiosResult.

Definition pingServer (this : RestClient) : M json :=
  r <- http net this ENDPOINTS.PING None ;;
  ret (Axios.response_data r).

Definition getServerTime (this : RestClient) : M json :=
  r <- http net this ENDPOINTS.TIME None ;;
  ret (Axios.response_data r).

Definition getOrderBook (this : RestClient) (symbol : string)
    (limit : option Z) : M Models.OrderBook :=
  params <- new_obj [("symbol", VStr symbol);
                     ("limit", optional_number limit)] ;;
  opts <- new_cfg (Axios.set_params params Axios.empty) ;;
  r <- http net this ENDPOINTS.ORDERBOOK (Some opts) ;;
  lift (reshape_order_book (Axios.response_data r)).

Definition getAllPrices (this : RestClient) : M json :=
  r <- http net this ENDPOINTS.ALLPRICES None ;;
  ret (Axios.response_data r).

Definition order (this : RestClient) (data : loc) : M json :=
  opts <- new_cfg (Axios.set_data (Axios.BodyRef data) Axios.empty) ;;
  r <- http net this ENDPOINTS.ORDER (Some opts) ;;
  ret (Axios.response_data r).

Definition getAllAccountOrders (this : RestClient) (opts : loc) : M json :=
  o <- new_cfg (Axios.set_params opts Axios.empty) ;;
  r <- http net this ENDPOINTS.ALLORDERS (Some o) ;;
  ret (Axios.response_data r).

Definition getAccountInformation (this : RestClient) (params : option loc)
  : M json :=
  o <- new_cfg (match params with
                | Some p => Axios.set_params p Axios.empty
                | None => Axios.empty
                end) ;;
  r <- http net this ENDPOINTS.ACCOUNT (Some o) ;;
  ret (Axios.response_data r).

End Methods.

(* ------------------------------------------------------------------ *)
(** ** Runs of the client on small inputs                              *)
(* ------------------------------------------------------------------ *)

Module Demo.

Definition ok200 (body : json)
  : Axios.AxiosInstance -> Axios.AxiosRequestConfig -> gmap loc obj
    -> Axios.AxiosResult :=
  fun _ _ _ => Axios.Resolved (Axios.mkResponse body 200 "OK").

Definition keyed : RestClient :=
  mkClient (mkOptions (Some "an-api-key") (Some "an-api-secret") None)
           (Axios.create AXIOS_DEFAULTS).

Definition anonymous : RestClient :=
  mkClient (mkOptions None None None) (Axios.create AXIOS_DEFAULTS).

Definition clock : Z := 1499827319559.

End Demo.

(* ------------------------------------------------------------------ *)
(** ** What a call is given and what it sends                          *)
(* ------------------------------------------------------------------ *)

Definition method_of (endpoint : Models.Endpoint) : Models.Method :=
  default Models.GET (Models.method endpoint).

(** The caller's options object as it is when [http] is entered. *)
Definition given_options (s : state) (opts : option loc)
  : Axios.AxiosRequestConfig :=
  match opts with
  | Some l => deref_cfg (cfgs s) l
  | None => Axios.empty
  end.

(** The caller's header container, if there is one. *)
Definition given_headers (s : state) (opts : option loc) : obj :=
  match Axios.headers (given_options s opts) with
  | Some h => deref (objs s) h
  | None => []
  end.

(** The working copy made of the caller's parameters. *)
Definition staged_inputs (s : state) (m : Models.Method) (opts : option loc)
  : obj :=
  if decide (m = Models.GET)
  then props_of_ref (objs s) (Axios.params (given_options s opts))
  else props_of_body (objs s) (Axios.data (given_options s opts)).

(** References never dangle in JavaScript; of the store we only need that
    the caller's header container, when given, exists. *)
Definition headers_allocated (s : state) (opts : option loc) : bool :=
  match Axios.headers (given_options s opts) with
  | Some h => bool_decide (is_Some (objs s !! h))
  | None => true
  end.

(** The headers, query parameters and body of a request, read off the
    snapshot taken when it was made. *)
Definition sent_headers (w : sent) : obj :=
  match Axios.headers (sent_config w) with
  | Some h => deref (sent_objs w) h
  | None => []
  end.

Definition sent_params (w : sent) : option obj :=
  match Axios.params (sent_config w) with
  | Some p => Some (deref (sent_objs w) p)
  | None => None
  end.

Definition sent_data (w : sent) : option Axios.body :=
  Axios.data (sent_config w).

(** What the request was given to carry: [inputs] as the [params] object
    handed to axios for GET, which axios serialises by itself (see
    [transmitted]), and [inputs] serialised into the body otherwise. *)
Definition carries (w : sent) (m : Models.Method) (inputs : obj) : Prop :=
  if decide (m = Models.GET)
  then sent_params w = Some inputs /\ sent_data w = None
  else sent_data w = Some (Axios.BodyText (qstringify inputs))
       /\ sent_params w = None.

(** The working mapping after lines 85-89 of [http]. *)
Definition stamp_and_sign (t : Z) (secret : string) (inputs : obj) : obj :=
  let stamped := obj_set "timestamp" (VNum t) inputs in
  obj_set "signature"
          (VStr (utils.getHmac (qstringify stamped) secret)) stamped.

(** The options object after lines 97-112 of [http]. *)
Definition request_config (endpoint : Models.Endpoint) (m : Models.Method)
    (h i : loc) (inputs : obj) (c : Axios.AxiosRequestConfig)
  : Axios.AxiosRequestConfig :=
  let c1 := Axios.assign c
              (Axios.mkConfig (Some (url_join API_BASE (Models.url endpoint)))
                 (Some m) (Some h) None None None (Some (fun _ => true)) []) in
  if decide (m = Models.GET) then Axios.set_params i c1
  else Axios.set_data (Axios.BodyText (qstringify inputs)) c1.

Definition expected_headers (this : RestClient) (ep : Models.Endpoint)
    (hdrs : obj) : obj :=
  if decide (Models.security ep = Models.NONE) then hdrs
  else obj_set "X-MBX-APIKEY"
               (VStr (default EmptyString (apikey (options this)))) hdrs.

Definition expected_inputs (this : RestClient) (ep : Models.Endpoint)
    (t : Z) (staged : obj) : obj :=
  if decide (Models.security ep = Models.SIGNED)
  then stamp_and_sign t (default EmptyString (apisecret (options this))) staged
  else staged.

Definition apikey_message (ep : Models.Endpoint) : string :=
  Models.security_name (Models.security ep)
  ++ " HTTP endpoints require opts.apikey to be provided".

Definition apisecret_message (ep : Models.Endpoint) : string :=
  Models.security_name (Models.security ep)
  ++ " HTTP endpoints require opts.apisecret to be provided".

(** The state after staging, relative to the state before. *)
Record staged_facts (m : Models.Method) (opts : option loc)
    (s s2 : state) (o h i : loc) : Prop := {
  st_wire : wire s2 = wire s;
  st_now : now s2 = now s;
  st_defaults : axios_defaults s2 = axios_defaults s;
  st_opts : forall l, opts = Some l -> o = l;
  st_cfg : cfgs s2 !! o
           = Some (Axios.delete_params (Axios.delete_data (given_options s opts)));
  st_cfg_frame : forall l, l ≠ o -> cfgs s2 !! l = cfgs s !! l;
  st_inputs_fresh : objs s !! i = None;
  st_headers_given :
    forall h', Axios.headers (given_options s opts) = Some h' -> h = h';
  st_headers_new :
    Axios.headers (given_options s opts) = None -> objs s !! h = None;
  st_objs : objs s2 = <[i := staged_inputs s m opts]>
                        (match Axios.headers (given_options s opts) with
                         | Some _ => objs s
                         | None => <[h := []]> (objs s)
                         end);
  st_hi : headers_allocated s opts = true -> h ≠ i
}.

Section Outcomes.

Variable net :
  Axios.AxiosInstance -> Axios.AxiosRequestConfig -> gmap loc obj
  -> Axios.AxiosResult.

(** The three ways a call of [http] ends. *)
Inductive http_outcome (this : RestClient) (ep : Models.Endpoint)
    (opts : option loc) (s : state)
  : state -> result Axios.AxiosResponse -> Prop :=
| outcome_no_apikey s' :
    Models.security ep ≠ Models.NONE ->
    truthy (apikey (options this)) = false ->
    wire s' = wire s ->
    http_outcome this ep opts s s'
      (Throw (Errors.MissingCredentialsError (apikey_message ep)))
| outcome_no_apisecret s' :
    Models.security ep = Models.SIGNED ->
    truthy (apikey (options this)) = true ->
    truthy (apisecret (options this)) = false ->
    wire s' = wire s ->
    http_outcome this ep opts s s'
      (Throw (Errors.MissingCredentialsError (apisecret_message ep)))
| outcome_sent s' w :
    (Models.security ep = Models.NONE
     \/ truthy (apikey (options this)) = true) ->
    (Models.security ep = Models.SIGNED ->
     truthy (apisecret (options this)) = true) ->
    wire s' = (wire s ++ [w])%list ->
    sent_by w = axios this ->
    sent_objs w = objs s' ->
    (forall l, opts = Some l -> cfgs s' !! l = Some (sent_config w)) ->
    (forall p, Axios.params (sent_config w) = Some p -> objs s !! p = None) ->
    (headers_allocated s opts = true ->
     sent_headers w = expected_headers this ep (given_headers s opts)) ->
    (headers_allocated s opts = true ->
     carries w (method_of ep)
       (expected_inputs this ep (now s)
          (staged_inputs s (method_of ep) opts))) ->
    http_outcome this ep opts s s'
      (settle (net (sent_by w) (sent_config w) (sent_objs w))).

(** Objects that exist before the call and are not the caller's header
    container are left as they were. *)
Definition frame (ep : Models.Endpoint) (opts : option loc)
    (s s' : state) : Prop :=
  forall l x,
    objs s !! l = Some x ->
    Models.security ep = Models.NONE
    \/ Axios.headers (given_options s opts) ≠ Some l ->
    objs s' !! l = Some x.

End Outcomes.

(** A lowercase hexadecimal digit. *)
Definition lower_hex (c : ascii) : bool :=
  let n := N_of_ascii c in
  ((48 <=? n) && (n <=? 57))%N || ((97 <=? n) && (n <=? 102))%N.

(** The configuration a freshly made client works with. *)
Definition effective_config (r : result RestClient)
  : option Axios.AxiosRequestConfig :=
  match r with
  | Ok client => Some (Axios.defaults (axios client))
  | Throw _ => None
  end.

(** The client with one credential replaced. *)
Definition with_apikey (k : option string) (this : RestClient) : RestClient :=
  mkClient (mkOptions k (apisecret (options this)) (axiosOptions (options this)))
           (axios this).

Definition with_apisecret (k : option string) (this : RestClient) : RestClient :=
  mkClient (mkOptions (apikey (options this)) k (axiosOptions (options this)))
           (axios this).

(** The caller's parameter mapping: [options.params] for GET,
    [options.data] otherwise. *)
Definition caller_params (s : state) (m : Models.Method) (opts : option loc)
  : obj :=
  if decide (m = Models.GET) then
    match Axios.params (given_options s opts) with
    | Some l => deref (objs s) l
    | None => []
    end
  else
    match Axios.data (given_options s opts) with
    | Some (Axios.BodyRef l) => deref (objs s) l
    | Some (Axios.BodyText t) => explode t
    | None => []
    end.



(** Reading C5: after the call the caller's options object and parameter
    mapping are what they were. *)
Definition caller_objects_unchanged (options_ref params_ref : loc)
    (s s' : state) : Prop :=
  cfgs s' !! options_ref = cfgs s !! options_ref
  /\ objs s' !! params_ref = objs s !! params_ref.

(** The raw order book [{lastUpdateId, bids, asks}] with string pairs. *)
Definition raw_pair (pq : string * string) : json :=
  JArr [JStr (fst pq); JStr (snd pq)].

Definition raw_order_book (id : Z) (bids asks : list (string * string)) : json :=
  JObj [("lastUpdateId", JNum id);
        ("bids", JArr (List.map raw_pair bids));
        ("asks", JArr (List.map raw_pair asks))].

Definition friendly_entry (pq : string * string) : Models.OrderBookEntry :=
  Models.mkOrderBookEntry (Some (JStr (fst pq))) (Some (JStr (snd pq))).

(** ** Scenarios *)

Module Scenario.

(** A transport that answers every request with the same status. *)
Definition answers (status : Z) (body : json)
  : Axios.AxiosInstance -> Axios.AxiosRequestConfig -> gmap loc obj
    -> Axios.AxiosResult :=
  fun _ _ _ => Axios.Resolved (Axios.mkResponse body status EmptyString).

(** [new RestClient({ axiosOptions: { timeout: 50 } })] followed by
    [new RestClient()], in a freshly loaded module. *)
Definition quick : RestClientOptions :=
  mkOptions None None
    (Some (Axios.mkConfig None None None None None
             (Some (Axios.number 50)) None [])).

Definition after_quick : state :=
  fst (new_RestClient (Some quick) (module_loaded Demo.clock)).

Definition second_client : result RestClient :=
  snd (new_RestClient None after_quick).

(** A transport on which every request times out. *)
Definition timeout_error : Axios.AxiosError :=
  Axios.mkAxiosError "Error" "timeout of 50ms exceeded" EmptyString.

Definition times_out
  : Axios.AxiosInstance -> Axios.AxiosRequestConfig -> gmap loc obj
    -> Axios.AxiosResult :=
  fun _ _ _ => Axios.Rejected timeout_error.


(** [const opts = { params: { symbol: 'LTCBTC' } }], then two calls of
    [http(ALLORDERS, opts)] one second apart. *)
Definition reuse_start : state :=
  mkState {[ 1%positive := [("symbol", VStr "LTCBTC")] ]}
          {[ 1%positive := Axios.set_params 1%positive Axios.empty ]}
          AXIOS_DEFAULTS Demo.clock [].

Definition reuse_first : state :=
  fst (http (Demo.ok200 (JArr [])) Demo.keyed ENDPOINTS.ALLORDERS
         (Some 1%positive) reuse_start).





(** The error body of the repository's fixtures. *)
Definition sample_error : json :=
  JObj [("code", JNum (-1121)); ("msg", JStr "Invalid symbol.")].

(** The order of the repository's [order()] test, as the caller's
    object. *)
Definition order_start : state :=
  mkState {[ 1%positive := [("symbol", VStr "BTCETH"); ("side", VStr "BUY");
                            ("type", VStr "LIMIT");
                            ("timeInForce", VStr "GTC");
                            ("quantity", VStr "1.43");
                            ("price", VStr "0.05")] ]}
          ∅ AXIOS_DEFAULTS Demo.clock [].

(** The one request a run has added to the wire. *)
Definition only_request (s : state) : sent :=
  match wire s with
  | [w] => w
  | _ => mkSent (Axios.create Axios.empty) Axios.empty ∅
  end.

End Scenario.

(* ------------------------------------------------------------------ *)
(** ** Further notions                                                 *)
(* ------------------------------------------------------------------ *)

(** The two credential tests of [http], lines 67-84, as one test. *)
Definition credentials_ok (this : RestClient) (ep : Models.Endpoint) : bool :=
  match Models.security ep with
  | Models.NONE => true
  | Models.API_KEY => truthy (apikey (options this))
  | Models.SIGNED =>
      truthy (apikey (options this)) && truthy (apisecret (options this))
  end.

(** No key occurs twice, as in every JavaScript object. *)
Fixpoint unique_keys (o : obj) : bool :=
  match o with
  | [] => true
  | (k, _) :: o' =>
      match obj_get k o' with
      | None => unique_keys o'
      | Some _ => false
      end
  end.

Definition result_map {A B} (f : A -> B) (r : result A) : result B :=
  match r with
  | Ok a => Ok (f a)
  | Throw e => Throw e
  end.

(** What [getOrderBook] makes of one entry that is not [null]. *)
Definition entry_of (entry : json) : Models.OrderBookEntry :=
  Models.mkOrderBookEntry (json_index 0 entry) (json_index 1 entry).

Definition is_null (j : json) : bool :=
  match j with
  | JNull => true
  | _ => false
  end.

(** Clients constructed one after the other; the state they leave. *)
Definition construct_many (l : list (option RestClientOptions)) (s : state)
  : state :=
  fold_left (fun st o => fst (new_RestClient o st)) l s.

(** The [timeout] property of a constructor argument's [axiosOptions], if
    they have one; its value may be [undefined]. *)
Definition timeout_override (o : option RestClientOptions)
  : option Axios.setting :=
  match o with
  | Some opts =>
      match axiosOptions opts with
      | Some c => Axios.timeout c
      | None => None
      end
  | None => None
  end.

(** A call that is a bare GET of [ep]: one request to the endpoint's URL,
    without headers and without parameters, whose data is returned. *)
Definition plain_get
    (net : Axios.AxiosInstance -> Axios.AxiosRequestConfig -> gmap loc obj
           -> Axios.AxiosResult)
    (ep : Models.Endpoint) (s : state) (run : state * result json) : Prop :=
  exists w,
    wire (fst run) = (wire s ++ [w])%list
    /\ Axios.url (sent_config w) = Some (url_join API_BASE (Models.url ep))
    /\ Axios.method (sent_config w) = Some Models.GET
    /\ sent_headers w = []
    /\ sent_params w = Some []
    /\ sent_data w = None
    /\ snd run
       = result_map Axios.response_data
           (settle (net (sent_by w) (sent_config w) (sent_objs w))).

(** A call that stops at the credential checks of a SIGNED endpoint. *)
Definition refused (this : RestClient) (s : state) {A}
    (run : state * result A) : Prop :=
  wire (fst run) = wire s
  /\ snd run
     = Throw (Errors.MissingCredentialsError
                (if truthy (apikey (options this))
                 then "SIGNED HTTP endpoints require opts.apisecret to be provided"
                 else "SIGNED HTTP endpoints require opts.apikey to be provided"))
  /\ forall l x, objs s !! l = Some x -> objs (fst run) !! l = Some x.

(** The [timeout] property of the most recent constructor argument that
    has one. *)
Definition latest_timeout (l : list (option RestClientOptions))
  : option Axios.setting :=
  last (omap timeout_override l).

(* ------------------------------------------------------------------ *)
(** ** What goes on the wire                                           *)
(* ------------------------------------------------------------------ *)

(** The parameters of a request as axios transmits them: the query it
    serialises from [params] and appends to the URL when the method is
    GET, the body text it was given otherwise.  [None] where the request
    does not go through axios as it comes, or holds a value whose
    serialisation is not modelled. *)
Definition transmitted (w : sent) : option string :=
  if Axios.default_pipeline (sent_by w) (sent_config w) then
    match Axios.method (sent_config w) with
    | Some Models.GET | None =>
        match sent_params w with
        | Some o => Axios.serializedParams o
        | None => Some EmptyString
        end
    | Some _ =>
        match sent_data w with
        | Some (Axios.BodyText t) => Some t
        | _ => None
        end
    end
  else None.











(** A path of segments of unreserved characters, each begun by one
    slash. *)
Fixpoint plain_from (after_slash : bool) (s : string) : bool :=
  match s with
  | EmptyString => true
  | String c s' =>
      if Ascii.eqb c "/" then negb after_slash && plain_from true s'
      else Querystring.unreserved c && plain_from false s'
  end.

Definition plain_path (p : string) : bool :=
  match p with
  | String c s' => Ascii.eqb c "/" && plain_from true s'
  | EmptyString => false
  end.



(** [new RestClient({ axiosOptions: { timeout: undefined } })]. *)
Definition untimed : RestClientOptions :=
  mkOptions None None
    (Some (Axios.mkConfig None None None None None (Some Axios.undefined)
             None [])).

(** [http(ENDPOINTS.PING, opts)] with the options object that
    [Scenario.reuse_first] has used for a signed call. *)
Definition ping_after_signed : state :=
  fst (http (Demo.ok200 JNull) Demo.keyed ENDPOINTS.PING (Some 1%positive)
         Scenario.reuse_first).

Definition ping_request : sent :=
  match wire ping_after_signed with
  | [_; w] => w
  | _ => mkSent (Axios.create Axios.empty) Axios.empty ∅
  end.

(* ------------------------------------------------------------------ *)
(** ** The primitives on known inputs                                  *)
(* ------------------------------------------------------------------ *)

Example sha256_abc :
  to_hex (SHA256.digest (list_byte_of_string "abc"))
  = "ba7816bf8f01cfea414140de5dae2223b00361a396177a9cb410ff61f20015ad".
Proof. vm_compute. reflexivity. Qed.

Example sha256_empty :
  to_hex (SHA256.digest [])
  = "e3b0c44298fc1c149afbf4c8996fb92427ae41e4649b934ca495991b7852b855".
Proof. vm_compute. reflexivity. Qed.

(** RFC 4231, test case 2. *)
Example hmac_rfc4231_2 :
  to_hex (HMAC.hmac_sha256 (list_byte_of_string "Jefe")
         (list_byte_of_string "what do ya want for nothing?"))
  = "5bdcc146bf60754e6a042426089575c75a003f089d2739839dec58b964ec3843".
Proof. vm_compute. reflexivity. Qed.

Example qstringify_order :
  qstringify [("symbol", VStr "LTC BTC"); ("limit", VUndefined);
              ("timestamp", VNum 1499827319559)]
  = "symbol=LTC%20BTC&limit=&timestamp=1499827319559".
Proof. reflexivity. Qed.

Example url_join_ping :
  url_join "https://api.binance.com/api" "/v1/ping"
  = "https://api.binance.com/api/v1/ping".
Proof. reflexivity. Qed.

(** A key longer than one block is hashed first. *)
Example hmac_long_key :
  to_hex (HMAC.hmac_sha256 (List.repeat "k"%byte 100) (List.repeat "x"%byte 200))
  = "e326f00ce14194bb85e2683fe9b1a78851753f77479303f94c2c3cd1998bdda3".
Proof. vm_compute. reflexivity. Qed.

Example string_of_Z_examples :
  string_of_Z 0 = "0" /\ string_of_Z 1499827319559 = "1499827319559"
  /\ string_of_Z (-1121) = "-1121".
Proof. repeat split. Qed.

Example qstringify_escapes :
  qstringify [("a b", VStr "x&y=z"); ("ok", VBool true); ("n", VNull)]
  = "a%20b=x%26y%3Dz&ok=true&n=".
Proof. reflexivity. Qed.

(** The repository's tests of [http], replayed on the model. *)

Example test_missing_apikey :
  snd (http (Demo.ok200 JNull) Demo.anonymous
         (Models.mkEndpoint "some/thing" None Models.API_KEY) None
         (module_loaded Demo.clock))
  = Throw (Errors.MissingCredentialsError
             "API-KEY HTTP endpoints require opts.apikey to be provided").
Proof. reflexivity. Qed.

Example test_missing_apisecret :
  snd (http (Demo.ok200 JNull)
         (mkClient (mkOptions (Some "an-api-key") None None)
                   (Axios.create AXIOS_DEFAULTS))
         (Models.mkEndpoint "some/thing" None Models.SIGNED) None
         (module_loaded Demo.clock))
  = Throw (Errors.MissingCredentialsError
             "SIGNED HTTP endpoints require opts.apisecret to be provided").
Proof. vm_compute. reflexivity. Qed.

Example test_status_406 :
  snd (http (Scenario.answers 406 Scenario.sample_error) Demo.keyed
         (Models.mkEndpoint "/some/endpoint" None Models.NONE) None
         (module_loaded Demo.clock))
  = Throw (Errors.MalformedRequestError Scenario.sample_error EmptyString 406).
Proof. vm_compute. reflexivity. Qed.

Example test_status_500 :
  snd (http (Scenario.answers 500 Scenario.sample_error) Demo.keyed
         (Models.mkEndpoint "/some-other/endpoint" None Models.NONE) None
         (module_loaded Demo.clock))
  = Throw (Errors.InternalRequestError Scenario.sample_error EmptyString 500).
Proof. vm_compute. reflexivity. Qed.

Example test_status_504 :
  snd (http (Scenario.answers 504 Scenario.sample_error) Demo.keyed
         (Models.mkEndpoint "/unknown/error/endpoint" None Models.NONE) None
         (module_loaded Demo.clock))
  = Throw (Errors.RequestResultUnknownError Scenario.sample_error
             EmptyString 504).
Proof. vm_compute. reflexivity. Qed.

Example test_timeout :
  match snd (http Scenario.times_out Demo.keyed
               (Models.mkEndpoint "/error/http-error" None Models.NONE) None
               (module_loaded Demo.clock)) with
  | Throw e =>
      Errors.name e = "BinanceHttpError"
      /\ e = Errors.HttpError "Error: timeout of 50ms exceeded" EmptyString
  | Ok _ => False
  end.
Proof. vm_compute. split; reflexivity. Qed.

Example test_order_is_signed :
  List.map sent_data
    (wire (fst (order (Demo.ok200 JNull) Demo.keyed 1%positive
                  Scenario.order_start)))
  = [Some (Axios.BodyText
       ("symbol=BTCETH&side=BUY&type=LIMIT&timeInForce=GTC&quantity=1.43"
        ++ "&price=0.05&timestamp=1499827319559&signature="
        ++ "0258513fcde13964785c4d1cf58108734bcfa6194250058a26802fe7b2463ea9"))].
Proof. vm_compute. reflexivity. Qed.

(* ------------------------------------------------------------------ *)
(** ** Plain objects and their serialisation                           *)
(* ------------------------------------------------------------------ *)

Lemma string_app_cons (x : ascii) (a b : string) :
  String x a ++ b = String x (a ++ b).
Proof. reflexivity. Qed.

Lemma string_app_assoc (a b c : string) : (a ++ b) ++ c = a ++ (b ++ c).
Proof.
  induction a as [|x a IH]; [reflexivity|].
  now rewrite !string_app_cons, IH.
Qed.

Lemma obj_get_set_eq (k : string) (v : value) (o : obj) :
  obj_get k (obj_set k v o) = Some v.
Proof.
  induction o as [|[k' v'] o IH]; cbn.
  - now rewrite String.eqb_refl.
  - destruct (String.eqb k' k) eqn:E; cbn.
    + now rewrite String.eqb_refl.
    + now rewrite E.
Qed.

Lemma obj_get_set_ne (k k' : string) (v : value) (o : obj) :
  k <> k' -> obj_get k' (obj_set k v o) = obj_get k' o.
Proof.
  intros Hne. induction o as [|[k0 v0] o IH]; cbn.
  - apply String.eqb_neq in Hne. now rewrite Hne.
  - destruct (String.eqb k0 k) eqn:E; cbn.
    + apply String.eqb_eq in E. subst k0.
      apply String.eqb_neq in Hne. now rewrite Hne.
    + now rewrite IH.
Qed.

(** A key the object does not have is added at the end. *)
Lemma obj_set_new (k : string) (v : value) (o : obj) :
  obj_get k o = None -> obj_set k v o = (o ++ [(k, v)])%list.
Proof.
  induction o as [|[k' v'] o IH]; cbn; [reflexivity|].
  destruct (String.eqb k' k); [discriminate|].
  intros H. now rewrite IH.
Qed.

Lemma obj_delete_set_new (k : string) (v : value) (o : obj) :
  obj_get k o = None -> obj_delete k (obj_set k v o) = o.
Proof.
  induction o as [|[k' v'] o IH]; cbn.
  - now rewrite String.eqb_refl.
  - destruct (String.eqb k' k) eqn:E; [discriminate|].
    intros H. cbn. rewrite E. now rewrite IH.
Qed.


(** Serialising one more pair appends ["&"] and the pair. *)
Lemma qstringify_snoc (o : obj) (kv : string * value) :
  o <> [] ->
  qstringify (o ++ [kv])%list = qstringify o ++ "&" ++ Querystring.field kv.
Proof.
  unfold qstringify, Querystring.stringify.
  induction o as [|a o IH]; [congruence|]. intros _.
  destruct o as [|b o]; [reflexivity|].
  change (String.concat "&" (List.map Querystring.field ((a :: b :: o) ++ [kv])%list))
    with (Querystring.field a ++ "&"
          ++ String.concat "&" (List.map Querystring.field ((b :: o) ++ [kv])%list)).
  rewrite IH by discriminate.
  change (String.concat "&" (List.map Querystring.field (a :: b :: o)))
    with (Querystring.field a ++ "&"
          ++ String.concat "&" (List.map Querystring.field (b :: o))).
  now rewrite !string_app_assoc.
Qed.

Lemma lower_hex_unreserved (c : ascii) :
  lower_hex c = true -> Querystring.unreserved c = true.
Proof.
  unfold lower_hex, Querystring.unreserved. cbv zeta.
  set (n := N_of_ascii c). intros H.
  apply orb_true_iff in H as [H|H]; apply andb_true_iff in H as [H1 H2];
    apply N.leb_le in H1, H2.
  - apply orb_true_iff. left. apply orb_true_iff. right.
    apply andb_true_iff. split; now apply N.leb_le.
  - apply orb_true_iff. left. apply orb_true_iff. left.
    apply orb_true_iff. right.
    apply andb_true_iff. split; apply N.leb_le; lia.
Qed.

(** Lowercase hexadecimal text needs no escaping. *)
Lemma escape_lower_hex (s : string) :
  forallb lower_hex (list_ascii_of_string s) = true ->
  Querystring.escape s = s.
Proof.
  induction s as [|c s IH]; [reflexivity|].
  cbn [list_ascii_of_string forallb Querystring.escape].
  intros H. apply andb_true_iff in H as [Hc Hs].
  now rewrite (lower_hex_unreserved c Hc), IH.
Qed.

Lemma obj_get_set_none (k k' : string) (v : value) (o : obj) :
  k <> k' -> obj_get k o = None -> obj_get k (obj_set k' v o) = None.
Proof. intros Hne H. now rewrite obj_get_set_ne by congruence. Qed.

(** [Object.assign] brings in no key that the source does not have. *)
Lemma obj_assign_absent (k : string) (source : obj) :
  obj_get k source = None ->
  forall target, obj_get k target = None ->
  obj_get k (obj_assign target source) = None.
Proof.
  unfold obj_assign.
  induction source as [|[k' v'] source IH]; cbn; [auto|].
  destruct (String.eqb k' k) eqn:E; [discriminate|].
  intros Hs target Ht. apply IH; [exact Hs|].
  apply obj_get_set_none; [|exact Ht].
  apply String.eqb_neq in E. congruence.
Qed.

Lemma obj_get_app (k : string) (a b : obj) :
  obj_get k (a ++ b)%list
  = match obj_get k a with
    | Some v => Some v
    | None => obj_get k b
    end.
Proof.
  induction a as [|[k' v'] a IH]; cbn; [reflexivity|].
  now destruct (String.eqb k' k).
Qed.

Lemma obj_assign_appends (o : obj) :
  forall t,
    unique_keys o = true ->
    (forall k, obj_get k o <> None -> obj_get k t = None) ->
    obj_assign t o = (t ++ o)%list.
Proof.
  unfold obj_assign.
  induction o as [|[k v] o IH]; intros t Hu Hd; cbn [fold_left fst snd].
  - now rewrite app_nil_r.
  - cbn [unique_keys] in Hu.
    destruct (obj_get k o) eqn:Hk; [discriminate|].
    assert (Ht : obj_get k t = None).
    { apply Hd. cbn. now rewrite String.eqb_refl. }
    rewrite (obj_set_new k v t Ht), IH; [now rewrite <- app_assoc|exact Hu|].
    intros k0 H0.
    assert (Hne : k <> k0) by (intros ->; congruence).
    rewrite obj_get_app, Hd.
    + cbn. apply String.eqb_neq in Hne. now rewrite Hne.
    + cbn. apply String.eqb_neq in Hne. now rewrite Hne.
Qed.

(** [Object.assign({}, o)] is a copy of [o], key by key and in order. *)
Lemma obj_assign_copy (o : obj) :
  unique_keys o = true -> obj_assign [] o = o.
Proof. intros Hu. now rewrite obj_assign_appends. Qed.

Lemma app_one_not_nil {A} (l : list A) (x : A) : l <> (l ++ [x])%list.
Proof.
  intros H. apply (f_equal (@List.length A)) in H.
  rewrite length_app in H. cbn in H. lia.
Qed.

(* ------------------------------------------------------------------ *)
(** ** Running the blocks of [http]                                    *)
(* ------------------------------------------------------------------ *)

Lemma bind_run {A B} (m : M A) (k : A -> M B) s s1 a :
  m s = (s1, Ok a) -> bind m k s = k a s1.
Proof. intros H. unfold bind. now rewrite H. Qed.

Lemma bind_throw {A B} (m : M A) (k : A -> M B) s s1 e :
  m s = (s1, Throw e) -> bind m k s = (s1, Throw e).
Proof. intros H. unfold bind. now rewrite H. Qed.

Lemma deref_insert_eq (h : gmap loc obj) l o : deref (<[l := o]> h) l = o.
Proof. unfold deref. now rewrite lookup_insert_eq. Qed.

Lemma deref_insert_ne (h : gmap loc obj) l l' o :
  l ≠ l' -> deref (<[l := o]> h) l' = deref h l'.
Proof. intros. unfold deref. now rewrite lookup_insert_ne. Qed.

Lemma deref_cfg_insert_eq (h : gmap loc Axios.AxiosRequestConfig) l c :
  deref_cfg (<[l := c]> h) l = c.
Proof. unfold deref_cfg. now rewrite lookup_insert_eq. Qed.

Lemma fresh_not_allocated (h : gmap loc obj) : h !! fresh (dom h) = None.
Proof. apply not_elem_of_dom. apply is_fresh. Qed.

Lemma deref_fresh (h : gmap loc obj) : deref h (fresh (dom h)) = [].
Proof. unfold deref. now rewrite fresh_not_allocated. Qed.

Ltac run :=
  cbv beta iota zeta delta
    [bind ret throw lift read_cfg new_cfg new_obj modify_cfg set_prop read_obj
     Date_now set_objs set_cfgs assign_new_from_ref assign_new_from_body];
  cbn [objs cfgs wire now axios_defaults fst snd].

Lemma props_of_ref_fresh (h : gmap loc obj) src :
  props_of_ref (<[fresh (dom h) := []]> h) src = props_of_ref h src.
Proof.
  destruct src as [l|]; [|reflexivity]. cbn.
  destruct (decide (fresh (dom h) = l)) as [<-|Hne].
  - now rewrite deref_insert_eq, deref_fresh.
  - now rewrite deref_insert_ne.
Qed.

Lemma props_of_body_fresh (h : gmap loc obj) src :
  props_of_body (<[fresh (dom h) := []]> h) src = props_of_body h src.
Proof.
  destruct src as [[l|t]|]; try reflexivity. cbn.
  destruct (decide (fresh (dom h) = l)) as [<-|Hne].
  - now rewrite deref_insert_eq, deref_fresh.
  - now rewrite deref_insert_ne.
Qed.

Lemma hi_distinct (h : loc) (m0 : gmap loc obj) :
  is_Some (m0 !! h) -> h ≠ fresh (dom m0).
Proof.
  intros Ha ->. rewrite fresh_not_allocated in Ha. now destruct Ha.
Qed.

Lemma fresh_above (m0 : gmap loc obj) l o :
  m0 !! fresh (dom (<[l := o]> m0)) = None.
Proof.
  pose proof (fresh_not_allocated (<[l := o]> m0)) as H.
  destruct (decide (l = fresh (dom (<[l := o]> m0)))) as [E|E].
  - rewrite <- E in H at 1. now rewrite lookup_insert_eq in H.
  - now rewrite lookup_insert_ne in H.
Qed.

Lemma fresh_after_insert (m0 : gmap loc obj) l o :
  l ≠ fresh (dom (<[l := o]> m0)).
Proof.
  apply hi_distinct.
  rewrite lookup_insert_eq. eauto.
Qed.

Ltac stage_facts Hh :=
  split; cbn [objs cfgs wire now axios_defaults given_options];
  rewrite ?deref_cfg_insert_eq in *; rewrite ?Hh;
  [ reflexivity | reflexivity | reflexivity
  | intros; congruence
  | rewrite ?lookup_insert_eq; reflexivity
  | intros ? ?; rewrite !lookup_insert_ne by congruence; reflexivity
  | first [apply fresh_not_allocated | apply fresh_above]
  | intros; congruence
  | intros; first [apply fresh_not_allocated | congruence]
  | unfold staged_inputs; cbn [given_options];
    rewrite ?deref_cfg_insert_eq, ?Hh,
      ?props_of_ref_fresh, ?props_of_body_fresh;
    repeat case_decide; try contradiction; reflexivity
  | unfold headers_allocated; cbn [given_options];
    rewrite ?deref_cfg_insert_eq, ?Hh;
    first [ intros Ha%bool_decide_eq_true; apply hi_distinct; exact Ha
          | intros _; apply fresh_after_insert ] ].

Lemma stage_run m opts s :
  exists s2 o h i,
    stage m opts s = (s2, Ok (o, h, i)) /\ staged_facts m opts s s2 o h i.
Proof.
  unfold stage.
  destruct opts as [l|].
  - run. destruct (Axios.headers (deref_cfg (cfgs s) l)) as [h|] eqn:Hh;
      destruct (decide (m = Models.GET)) as [Hm|Hm]; run;
      do 4 eexists; (split; [reflexivity|]); stage_facts Hh.
  - run. rewrite deref_cfg_insert_eq. cbn [Axios.headers Axios.empty].
    assert (Hh : Axios.headers Axios.empty = None) by reflexivity.
    destruct (decide (m = Models.GET)) as [Hm|Hm]; run;
      do 4 eexists; (split; [reflexivity|]); stage_facts Hh.
Qed.

Lemma require_apikey_none this ep h s :
  Models.security ep = Models.NONE ->
  require_apikey this ep h s = (s, Ok tt).
Proof. intros E. unfold require_apikey. now rewrite decide_True. Qed.

Lemma require_apikey_missing this ep h s :
  Models.security ep ≠ Models.NONE ->
  truthy (apikey (options this)) = false ->
  require_apikey this ep h s
  = (s, Throw (Errors.MissingCredentialsError
                 (Models.security_name (Models.security ep)
                  ++ " HTTP endpoints require opts.apikey to be provided"))).
Proof.
  intros E T. unfold require_apikey. rewrite decide_False by done.
  now rewrite T.
Qed.

Lemma require_apikey_present this ep h s :
  Models.security ep ≠ Models.NONE ->
  truthy (apikey (options this)) = true ->
  require_apikey this ep h s
  = (set_objs <[h := obj_set "X-MBX-APIKEY"
                       (VStr (default EmptyString (apikey (options this))))
                       (deref (objs s) h)]> s, Ok tt).
Proof.
  intros E T. unfold require_apikey. rewrite decide_False by done.
  now rewrite T.
Qed.

Lemma sign_inputs_unsigned this ep i s :
  Models.security ep ≠ Models.SIGNED ->
  sign_inputs this ep i s = (s, Ok tt).
Proof. intros E. unfold sign_inputs. now rewrite decide_False. Qed.

Lemma sign_inputs_missing this ep i s :
  Models.security ep = Models.SIGNED ->
  truthy (apisecret (options this)) = false ->
  sign_inputs this ep i s
  = (s, Throw (Errors.MissingCredentialsError
                 (Models.security_name (Models.security ep)
                  ++ " HTTP endpoints require opts.apisecret to be provided"))).
Proof.
  intros E T. unfold sign_inputs. rewrite decide_True by done.
  now rewrite T.
Qed.

Lemma sign_inputs_present this ep i s :
  Models.security ep = Models.SIGNED ->
  truthy (apisecret (options this)) = true ->
  sign_inputs this ep i s
  = (set_objs <[i := stamp_and_sign (now s)
                       (default EmptyString (apisecret (options this)))
                       (deref (objs s) i)]> s, Ok tt).
Proof.
  intros E T. unfold sign_inputs. rewrite decide_True by done.
  rewrite T. cbn [negb]. run. rewrite !deref_insert_eq, insert_insert_eq. reflexivity.
Qed.

Lemma build_request_run ep m o h i s :
  build_request ep m o h i s
  = (set_cfgs <[o := request_config ep m h i (deref (objs s) i)
                       (deref_cfg (cfgs s) o)]> s, Ok tt).
Proof.
  unfold build_request, request_config.
  destruct (decide (m = Models.GET)); run;
    rewrite deref_cfg_insert_eq, insert_insert_eq; reflexivity.
Qed.

Lemma transmit_run net this o s :
  transmit net this o s
  = (let w := mkSent (axios this) (deref_cfg (cfgs s) o) (objs s) in
     (mkState (objs s) (cfgs s) (axios_defaults s) (now s) (wire s ++ [w]),
      settle (net (axios this) (deref_cfg (cfgs s) o) (objs s)))).
Proof. reflexivity. Qed.

Section StagedFacts.

Context {m : Models.Method} {opts : option loc} {s s2 : state} {o h i : loc}.
Hypothesis F : staged_facts m opts s s2 o h i.

Lemma sf_inputs : deref (objs s2) i = staged_inputs s m opts.
Proof. rewrite (st_objs _ _ _ _ _ _ _ F). apply deref_insert_eq. Qed.

Lemma sf_headers :
  headers_allocated s opts = true ->
  deref (objs s2) h = given_headers s opts.
Proof.
  intros Ha. pose proof (st_hi _ _ _ _ _ _ _ F Ha) as Hne.
  rewrite (st_objs _ _ _ _ _ _ _ F), deref_insert_ne by congruence.
  unfold given_headers.
  destruct (Axios.headers (given_options s opts)) as [h'|] eqn:Hh.
  - now rewrite (st_headers_given _ _ _ _ _ _ _ F h').
  - apply deref_insert_eq.
Qed.

Lemma sf_cfg :
  deref_cfg (cfgs s2) o
  = Axios.delete_params (Axios.delete_data (given_options s opts)).
Proof. unfold deref_cfg. now rewrite (st_cfg _ _ _ _ _ _ _ F). Qed.

Lemma sf_old l x :
  objs s !! l = Some x ->
  objs s2 !! l = Some x /\ l ≠ i
  /\ (Axios.headers (given_options s opts) ≠ Some l -> l ≠ h).
Proof.
  intros Hl.
  assert (Hi : l ≠ i).
  { intros ->. rewrite (st_inputs_fresh _ _ _ _ _ _ _ F) in Hl. discriminate. }
  split; [|split; [exact Hi|]].
  - rewrite (st_objs _ _ _ _ _ _ _ F), lookup_insert_ne by congruence.
    destruct (Axios.headers (given_options s opts)) eqn:Hh; [exact Hl|].
    rewrite lookup_insert_ne; [exact Hl|].
    intros ->. rewrite (st_headers_new _ _ _ _ _ _ _ F Hh) in Hl.
    discriminate.
  - intros Hne ->.
    destruct (Axios.headers (given_options s opts)) as [h'|] eqn:Hh.
    + apply Hne. f_equal. symmetry. now apply (st_headers_given _ _ _ _ _ _ _ F).
    + rewrite (st_headers_new _ _ _ _ _ _ _ F Hh) in Hl. discriminate.
Qed.

End StagedFacts.

Lemma request_config_headers ep m h i inputs c :
  Axios.headers (request_config ep m h i inputs c) = Some h.
Proof. unfold request_config. now destruct (decide (m = Models.GET)). Qed.

Lemma request_config_GET ep h i inputs c :
  Axios.params (request_config ep Models.GET h i inputs c) = Some i
  /\ Axios.data (request_config ep Models.GET h i inputs c) = Axios.data c.
Proof. now unfold request_config. Qed.

Lemma request_config_body ep m h i inputs c :
  m ≠ Models.GET ->
  Axios.data (request_config ep m h i inputs c)
  = Some (Axios.BodyText (qstringify inputs))
  /\ Axios.params (request_config ep m h i inputs c) = Axios.params c.
Proof. intros Hm. unfold request_config. now rewrite decide_False. Qed.

Section Runs.

Variable net :
  Axios.AxiosInstance -> Axios.AxiosRequestConfig -> gmap loc obj
  -> Axios.AxiosResult.

Lemma send_run this ep m o h i s4 :
  (build_request ep m o h i ;;; transmit net this o) s4
  = let c := request_config ep m h i (deref (objs s4) i)
               (deref_cfg (cfgs s4) o) in
    (mkState (objs s4) (<[o := c]> (cfgs s4)) (axios_defaults s4) (now s4)
             (wire s4 ++ [mkSent (axios this) c (objs s4)]),
     settle (net (axios this) c (objs s4))).
Proof.
  rewrite (bind_run _ _ _ _ _ (build_request_run ep m o h i s4)).
  rewrite transmit_run. unfold set_cfgs.
  cbn [objs cfgs wire now axios_defaults].
  now rewrite deref_cfg_insert_eq.
Qed.

(** What is handed to axios once the credential checks have passed, from
    a state [s4] that differs from the staged one only in the header
    container and the working mapping. *)
Lemma sent_facts this ep opts s s2 s4 o h i hdrs inputs :
  staged_facts (method_of ep) opts s s2 o h i ->
  cfgs s4 = cfgs s2 ->
  deref (objs s4) h = hdrs ->
  deref (objs s4) i = inputs ->
  let c := request_config ep (method_of ep) h i inputs
             (deref_cfg (cfgs s4) o) in
  let w := mkSent (axios this) c (objs s4) in
  sent_headers w = hdrs /\ carries w (method_of ep) inputs
  /\ (forall p, Axios.params c = Some p -> objs s !! p = None).
Proof.
  intros F Hc Hh Hi c w. split; [|split].
  - unfold sent_headers, w, c. cbn [sent_config sent_objs].
    now rewrite request_config_headers.
  - unfold carries, sent_params, sent_data, w, c.
    cbn [sent_config sent_objs]. rewrite Hc, (sf_cfg F).
    destruct (decide (method_of ep = Models.GET)) as [Hm|Hm].
    + rewrite Hm.
      destruct (request_config_GET ep h i inputs
                  (Axios.delete_params (Axios.delete_data (given_options s opts))))
        as [-> ->].
      now rewrite Hi.
    + destruct (request_config_body ep (method_of ep) h i inputs
                  (Axios.delete_params (Axios.delete_data (given_options s opts))) Hm)
        as [-> ->].
      now split.
  - intros p. unfold c. rewrite Hc, (sf_cfg F).
    destruct (decide (method_of ep = Models.GET)) as [Hm|Hm].
    + rewrite Hm.
      destruct (request_config_GET ep h i inputs
                  (Axios.delete_params (Axios.delete_data (given_options s opts))))
        as [-> _].
      intros [= <-]. apply (st_inputs_fresh _ _ _ _ _ _ _ F).
    + destruct (request_config_body ep (method_of ep) h i inputs
                  (Axios.delete_params (Axios.delete_data (given_options s opts))) Hm)
        as [_ ->].
      discriminate.
Qed.

Lemma http_run this ep opts s :
  exists s' r,
    http net this ep opts s = (s', r)
    /\ http_outcome net this ep opts s s' r
    /\ frame ep opts s s'
    /\ now s' = now s /\ axios_defaults s' = axios_defaults s.
Proof.
  unfold http. fold (method_of ep).
  destruct (stage_run (method_of ep) opts s) as (s2 & o & h & i & Hst & F).
  rewrite (bind_run _ _ _ _ _ Hst).
  pose proof (st_wire _ _ _ _ _ _ _ F) as Hw.
  pose proof (st_now _ _ _ _ _ _ _ F) as Hn.
  pose proof (st_defaults _ _ _ _ _ _ _ F) as Hd.
  destruct (decide (Models.security ep = Models.NONE)) as [Hnone|Hnone].
  - (* public endpoint *)
    rewrite (bind_run _ _ _ _ _ (require_apikey_none this ep h s2 Hnone)).
    rewrite (bind_run _ _ _ _ _ (sign_inputs_unsigned this ep i s2
                                   ltac:(congruence))).
    rewrite send_run. cbv zeta. do 2 eexists. split; [reflexivity|].
    split; [|split; [|split; [exact Hn|exact Hd]]].
    + apply outcome_sent with
        (w := mkSent (axios this)
                (request_config ep (method_of ep) h i (deref (objs s2) i)
                   (deref_cfg (cfgs s2) o)) (objs s2));
        cbn [wire objs cfgs sent_by sent_objs sent_config];
        [now left | congruence | now rewrite Hw | reflexivity
        | reflexivity | | | | ].
      * intros l ->. rewrite (st_opts _ _ _ _ _ _ _ F l eq_refl).
        apply lookup_insert_eq.
      * intros p Hp.
        now apply (sent_facts this ep opts s s2 s2 o h i _ _ F eq_refl
                     eq_refl eq_refl).
      * intros Ha.
        destruct (sent_facts this ep opts s s2 s2 o h i _ _ F eq_refl
                    eq_refl eq_refl) as (-> & _ & _).
        unfold expected_headers. rewrite decide_True by done.
        now apply (sf_headers F).
      * intros Ha.
        destruct (sent_facts this ep opts s s2 s2 o h i _ _ F eq_refl
                    eq_refl eq_refl) as (_ & Hc & _).
        unfold expected_inputs. rewrite decide_False by congruence.
        rewrite <- (sf_inputs F). exact Hc.
    + intros l x Hl _. cbn [objs]. now apply (sf_old F).
  - destruct (truthy (apikey (options this))) eqn:Hkey.
    2:{ (* no API key *)
        rewrite (bind_throw _ _ _ _ _
                   (require_apikey_missing this ep h s2 Hnone Hkey)).
        do 2 eexists. split; [reflexivity|].
        split; [|split; [|split; [exact Hn|exact Hd]]].
        - now apply outcome_no_apikey.
        - intros l x Hl _. now apply (sf_old F). }
    rewrite (bind_run _ _ _ _ _
               (require_apikey_present this ep h s2 Hnone Hkey)).
    set (s3 := set_objs _ s2).
    assert (H3 : forall l x,
               objs s !! l = Some x ->
               Models.security ep = Models.NONE
               \/ Axios.headers (given_options s opts) ≠ Some l ->
               objs s3 !! l = Some x /\ l ≠ i).
    { intros l x Hl [Hc|Hc]; [contradiction|].
      destruct (sf_old F l x Hl) as (H2 & Hi & Hh).
      split; [|exact Hi]. unfold s3, set_objs. cbn [objs].
      rewrite lookup_insert_ne; [exact H2|]. intros E. now apply Hh. }
    destruct (decide (Models.security ep = Models.SIGNED)) as [Hsig|Hsig].
    + destruct (truthy (apisecret (options this))) eqn:Hsec.
      2:{ (* no API secret *)
          rewrite (bind_throw _ _ _ _ _
                     (sign_inputs_missing this ep i s3 Hsig Hsec)).
          do 2 eexists. split; [reflexivity|].
          split; [|split; [|split; [exact Hn|exact Hd]]].
          - now apply outcome_no_apisecret.
          - intros l x Hl Hc. now apply H3. }
      (* signed request *)
      rewrite (bind_run _ _ _ _ _
                 (sign_inputs_present this ep i s3 Hsig Hsec)).
      set (s4 := set_objs _ s3).
      rewrite send_run. cbv zeta. do 2 eexists. split; [reflexivity|].
      split; [|split; [|split; [exact Hn|exact Hd]]].
      * apply outcome_sent with
          (w := mkSent (axios this)
                  (request_config ep (method_of ep) h i (deref (objs s4) i)
                     (deref_cfg (cfgs s4) o)) (objs s4));
          cbn [wire objs cfgs sent_by sent_objs sent_config];
          [now right | congruence | now rewrite <- Hw | reflexivity
          | reflexivity | | | | ].
        -- intros l ->. rewrite (st_opts _ _ _ _ _ _ _ F l eq_refl).
           apply lookup_insert_eq.
        -- intros p Hp.
           now apply (sent_facts this ep opts s s2 s4 o h i _ _ F eq_refl
                        eq_refl eq_refl).
        -- intros Ha.
           destruct (sent_facts this ep opts s s2 s4 o h i _ _ F eq_refl
                       eq_refl eq_refl) as (-> & _ & _).
           pose proof (st_hi _ _ _ _ _ _ _ F Ha) as Hne.
           unfold s4, s3, set_objs. cbn [objs].
           rewrite deref_insert_ne by congruence.
           rewrite deref_insert_eq.
           unfold expected_headers. rewrite decide_False by done.
           now rewrite (sf_headers F Ha).
        -- intros Ha.
           destruct (sent_facts this ep opts s s2 s4 o h i _ _ F eq_refl
                       eq_refl eq_refl) as (_ & Hc & _).
           pose proof (st_hi _ _ _ _ _ _ _ F Ha) as Hne.
           unfold expected_inputs. rewrite decide_True by done.
           assert (E : deref (objs s4) i
                       = stamp_and_sign (now s)
                           (default EmptyString (apisecret (options this)))
                           (staged_inputs s (method_of ep) opts)).
           { unfold s4, s3, set_objs. cbn [objs now].
             rewrite deref_insert_eq, deref_insert_ne by congruence.
             now rewrite (sf_inputs F), Hn. }
           rewrite <- E. exact Hc.
      * intros l x Hl Hc. destruct (H3 l x Hl Hc) as [H3l Hi].
        unfold s4, set_objs. cbn [objs].
        now rewrite lookup_insert_ne by congruence.
    + (* API-key request *)
      rewrite (bind_run _ _ _ _ _ (sign_inputs_unsigned this ep i s3 Hsig)).
      rewrite send_run. cbv zeta. do 2 eexists. split; [reflexivity|].
      split; [|split; [|split; [exact Hn|exact Hd]]].
      * apply outcome_sent with
          (w := mkSent (axios this)
                  (request_config ep (method_of ep) h i (deref (objs s3) i)
                     (deref_cfg (cfgs s3) o)) (objs s3));
          cbn [wire objs cfgs sent_by sent_objs sent_config];
          [now right | congruence | now rewrite <- Hw | reflexivity
          | reflexivity | | | | ].
        -- intros l ->. rewrite (st_opts _ _ _ _ _ _ _ F l eq_refl).
           apply lookup_insert_eq.
        -- intros p Hp.
           now apply (sent_facts this ep opts s s2 s3 o h i _ _ F eq_refl
                        eq_refl eq_refl).
        -- intros Ha.
           destruct (sent_facts this ep opts s s2 s3 o h i _ _ F eq_refl
                       eq_refl eq_refl) as (-> & _ & _).
           unfold s3, set_objs. cbn [objs].
           rewrite deref_insert_eq.
           unfold expected_headers. rewrite decide_False by done.
           now rewrite (sf_headers F Ha).
        -- intros Ha.
           destruct (sent_facts this ep opts s s2 s3 o h i _ _ F eq_refl
                       eq_refl eq_refl) as (_ & Hc & _).
           pose proof (st_hi _ _ _ _ _ _ _ F Ha) as Hne.
           unfold expected_inputs. rewrite decide_False by done.
           assert (E : deref (objs s3) i
                       = staged_inputs s (method_of ep) opts).
           { unfold s3, set_objs. cbn [objs].
             rewrite deref_insert_ne by congruence.
             now rewrite (sf_inputs F). }
           rewrite <- E. exact Hc.
      * intros l x Hl Hc. now apply H3.
Qed.

End Runs.
(* ------------------------------------------------------------------ *)
(** ** The request of a call                                           *)
(* ------------------------------------------------------------------ *)

(** Once the credential checks pass, exactly one request is made, with the
    headers and parameters the security level calls for. *)
Lemma http_sends net this ep opts s :
  Models.security ep = Models.NONE \/ truthy (apikey (options this)) = true ->
  (Models.security ep = Models.SIGNED ->
   truthy (apisecret (options this)) = true) ->
  exists w,
    wire (fst (http net this ep opts s)) = (wire s ++ [w])%list
    /\ snd (http net this ep opts s)
       = settle (net (sent_by w) (sent_config w) (sent_objs w))
    /\ sent_by w = axios this
    /\ (headers_allocated s opts = true ->
        sent_headers w = expected_headers this ep (given_headers s opts))
    /\ (headers_allocated s opts = true ->
        carries w (method_of ep)
          (expected_inputs this ep (now s)
             (staged_inputs s (method_of ep) opts))).
Proof.
  intros Hkey Hsecret.
  destruct (http_run net this ep opts s) as (s' & r & Hrun & Hout & _).
  rewrite Hrun. cbn [fst snd].
  destruct Hout as [s' Hne Hno _ | s' Hsig _ Hno _
                   | s' w _ _ Hw Hby _ _ _ Hh Hc].
  - destruct Hkey; congruence.
  - specialize (Hsecret Hsig). congruence.
  - exists w. now repeat split.
Qed.

Lemma bind_ext {A B} (m : M A) (k1 k2 : A -> M B) (s : state) :
  (forall a s1, k1 a s1 = k2 a s1) -> bind m k1 s = bind m k2 s.
Proof.
  intros H. unfold bind. destruct (m s) as [s1 [a|e]]; [apply H|reflexivity].
Qed.

(** With no options object given, the one [http] makes is new. *)
Lemma stage_fresh_options m s s2 o h i :
  stage m None s = (s2, Ok (o, h, i)) -> cfgs s !! o = None.
Proof.
  unfold stage. run. rewrite deref_cfg_insert_eq.
  cbn [Axios.headers Axios.empty].
  destruct (decide (m = Models.GET)); run; intros [= _ <- _ _];
    apply not_elem_of_dom, is_fresh.
Qed.

Section Tail.

Variable net :
  Axios.AxiosInstance -> Axios.AxiosRequestConfig -> gmap loc obj
  -> Axios.AxiosResult.

(** Every run of [http], seen from the staged state: the options object
    is written once more only if a request is made, and then it is the
    request's configuration. *)
Lemma http_tail_cases this ep opts s :
  exists s2 o h i s' r,
    stage (method_of ep) opts s = (s2, Ok (o, h, i))
    /\ staged_facts (method_of ep) opts s s2 o h i
    /\ http net this ep opts s = (s', r)
    /\ ((credentials_ok this ep = false
         /\ cfgs s' = cfgs s2 /\ wire s' = wire s
         /\ exists msg, r = Throw (Errors.MissingCredentialsError msg))
        \/ (credentials_ok this ep = true
            /\ exists c,
                c = request_config ep (method_of ep) h i (deref (objs s') i)
                      (Axios.delete_params
                         (Axios.delete_data (given_options s opts)))
                /\ cfgs s' = <[o := c]> (cfgs s2)
                /\ wire s' = (wire s ++ [mkSent (axios this) c (objs s')])%list
                /\ r = settle (net (axios this) c (objs s')))).
Proof.
  destruct (stage_run (method_of ep) opts s) as (s2 & o & h & i & Hst & F).
  pose proof (st_wire _ _ _ _ _ _ _ F) as Hw.
  exists s2, o, h, i. unfold http, credentials_ok. fold (method_of ep).
  rewrite (bind_run _ _ _ _ _ Hst).
  destruct (decide (Models.security ep = Models.NONE)) as [Hnone|Hnone].
  - rewrite (bind_run _ _ _ _ _ (require_apikey_none this ep h s2 Hnone)).
    rewrite (bind_run _ _ _ _ _ (sign_inputs_unsigned this ep i s2
                                   ltac:(congruence))).
    rewrite send_run. cbv zeta. do 2 eexists.
    split; [exact Hst|]. split; [exact F|]. split; [reflexivity|].
    right. rewrite Hnone. split; [reflexivity|]. eexists.
    split; [reflexivity|]. cbn [objs cfgs wire].
    rewrite (sf_cfg F), Hw. now repeat split.
  - destruct (truthy (apikey (options this))) eqn:Hkey.
    2:{ rewrite (bind_throw _ _ _ _ _
                   (require_apikey_missing this ep h s2 Hnone Hkey)).
        do 2 eexists.
        split; [exact Hst|]. split; [exact F|]. split; [reflexivity|].
        left. split; [now destruct (Models.security ep)|]. eauto. }
    rewrite (bind_run _ _ _ _ _
               (require_apikey_present this ep h s2 Hnone Hkey)).
    destruct (decide (Models.security ep = Models.SIGNED)) as [Hsig|Hsig].
    + destruct (truthy (apisecret (options this))) eqn:Hsec.
      2:{ rewrite (bind_throw _ _ _ _ _
                     (sign_inputs_missing this ep i _ Hsig Hsec)).
          do 2 eexists.
          split; [exact Hst|]. split; [exact F|]. split; [reflexivity|].
          left. rewrite Hsig. cbn [set_objs cfgs wire]. eauto. }
      rewrite (bind_run _ _ _ _ _
                 (sign_inputs_present this ep i _ Hsig Hsec)).
      rewrite send_run. cbv zeta. do 2 eexists.
      split; [exact Hst|]. split; [exact F|]. split; [reflexivity|].
      right. rewrite Hsig. split; [reflexivity|]. eexists.
      split; [reflexivity|]. cbn [set_objs objs cfgs wire].
      rewrite (sf_cfg F), Hw. now repeat split.
    + rewrite (bind_run _ _ _ _ _ (sign_inputs_unsigned this ep i _ Hsig)).
      rewrite send_run. cbv zeta. do 2 eexists.
      split; [exact Hst|]. split; [exact F|]. split; [reflexivity|].
      right. split; [now destruct (Models.security ep)|]. eexists.
      split; [reflexivity|]. cbn [set_objs objs cfgs wire].
      rewrite (sf_cfg F), Hw. now repeat split.
Qed.

End Tail.

Lemma request_config_fields ep m h i inputs c :
  let c' := request_config ep m h i inputs c in
  Axios.url c' = Some (url_join API_BASE (Models.url ep))
  /\ Axios.method c' = Some m
  /\ Axios.headers c' = Some h
  /\ (exists f, Axios.validateStatus c' = Some f /\ forall st, f st = true)
  /\ Axios.timeout c' = Axios.timeout c
  /\ Axios.others c' = Axios.others c.
Proof.
  unfold request_config. cbv zeta.
  destruct (decide (m = Models.GET));
    cbn [Axios.set_params Axios.set_data Axios.assign Axios.url Axios.method
         Axios.headers Axios.validateStatus Axios.timeout Axios.others
         Axios.override obj_assign fold_left];
    repeat split; eauto.
Qed.

Lemma credentials_ok_cases this ep :
  credentials_ok this ep = true ->
  (Models.security ep = Models.NONE \/ truthy (apikey (options this)) = true)
  /\ (Models.security ep = Models.SIGNED ->
      truthy (apisecret (options this)) = true).
Proof.
  unfold credentials_ok.
  destruct (Models.security ep); intros H; split; auto; try discriminate;
    apply andb_true_iff in H as [H1 H2]; auto.
Qed.

(** All that is known of the request of a call whose credential checks
    pass. *)
Lemma http_request_facts net this ep opts s :
  credentials_ok this ep = true ->
  headers_allocated s opts = true ->
  exists w,
    wire (fst (http net this ep opts s)) = (wire s ++ [w])%list
    /\ snd (http net this ep opts s)
       = settle (net (sent_by w) (sent_config w) (sent_objs w))
    /\ Axios.url (sent_config w) = Some (url_join API_BASE (Models.url ep))
    /\ Axios.method (sent_config w) = Some (method_of ep)
    /\ sent_headers w = expected_headers this ep (given_headers s opts)
    /\ carries w (method_of ep)
         (expected_inputs this ep (now s)
            (staged_inputs s (method_of ep) opts))
    /\ frame ep opts s (fst (http net this ep opts s)).
Proof.
  intros Hok Ha. destruct (credentials_ok_cases this ep Hok) as [Hk Hs].
  destruct (http_sends net this ep opts s Hk Hs)
    as (w & Hw & Hr & _ & Hh & Hc).
  exists w. split; [exact Hw|]. split; [exact Hr|].
  destruct (http_tail_cases net this ep opts s)
    as (s2 & o & h & i & s' & r & _ & _ & Hrun & [H|H]).
  { destruct H as (H & _). congruence. }
  destruct H as (_ & c & Hcfg & _ & Hw' & _).
  rewrite Hrun in Hw. cbn [fst] in Hw. rewrite Hw' in Hw.
  apply app_inj_tail in Hw as [_ <-]. cbn [sent_config].
  destruct (request_config_fields ep (method_of ep) h i (deref (objs s') i)
              (Axios.delete_params (Axios.delete_data (given_options s opts))))
    as (H1 & H2 & _).
  rewrite <- Hcfg in H1, H2.
  split; [exact H1|]. split; [exact H2|].
  split; [now apply Hh|]. split; [now apply Hc|].
  destruct (http_run net this ep opts s) as (s'' & r'' & Hrun' & _ & Hf & _).
  now rewrite Hrun'.
Qed.

(* ------------------------------------------------------------------ *)
(** ** The text axios makes of the parameters                          *)
(* ------------------------------------------------------------------ *)
















(* ------------------------------------------------------------------ *)
(** ** [url-join] on plain paths                                       *)
(* ------------------------------------------------------------------ *)

Lemma unreserved_plain (c : ascii) :
  Querystring.unreserved c = true ->
  Ascii.eqb c ":" = false /\ white_space c = false /\ line_end c = false
  /\ Ascii.eqb c "/" = false /\ Ascii.eqb c "?" = false
  /\ Ascii.eqb c "&" = false /\ Ascii.eqb c "#" = false.
Proof.
  destruct c as [[] [] [] [] [] [] [] []]; vm_compute; intros H;
    try discriminate H; repeat split.
Qed.

Lemma protocol_slashes_plain (q : string) :
  forall b, plain_from b q = true -> protocol_slashes q = q.
Proof.
  induction q as [|c q IH]; [reflexivity|]. intros b.
  cbn [plain_from protocol_slashes].
  destruct (Ascii.eqb c "/") eqn:E.
  - apply Ascii.eqb_eq in E. subst c. cbn [Ascii.eqb Bool.eqb].
    intros H. apply andb_true_iff in H as [_ H]. now rewrite (IH _ H).
  - intros H. apply andb_true_iff in H as [Hc H].
    destruct (unreserved_plain c Hc) as (-> & _). now rewrite (IH _ H).
Qed.

Lemma collapse_slashes_plain (q : string) :
  forall b,
    plain_from b q = true ->
    collapse_slashes false q = q
    /\ collapse_slashes true q
       = match q with
         | String c q' => if Ascii.eqb c "/" then q' else q
         | EmptyString => q
         end.
Proof.
  induction q as [|c q IH]; [now split|]. intros b.
  cbn [plain_from]. destruct (Ascii.eqb c "/") eqn:E.
  - apply Ascii.eqb_eq in E. subst c. intros H.
    apply andb_true_iff in H as [_ H]. destruct (IH _ H) as [IH1 IH2].
    assert (Hq : collapse_slashes true q = q).
    { rewrite IH2. destruct q as [|d q]; [reflexivity|].
      cbn [plain_from] in H. destruct (Ascii.eqb d "/"); [discriminate H|].
      reflexivity. }
    split.
    + cbn [collapse_slashes andb Ascii.eqb Bool.eqb orb white_space].
      destruct q as [|d q]; [reflexivity|].
      cbn [plain_from] in H. destruct (Ascii.eqb d "/"); [discriminate H|].
      now rewrite IH1.
    + cbn [collapse_slashes andb Ascii.eqb Bool.eqb]. exact Hq.
  - intros H. apply andb_true_iff in H as [Hc H].
    destruct (unreserved_plain c Hc) as (Hcolon & Hws & _).
    destruct (IH _ H) as [IH1 IH2].
    assert (Hf : collapse_slashes false (String c q) = String c q).
    { cbn [collapse_slashes andb]. rewrite Hcolon, Hws. cbn [orb].
      destruct q as [|d q]; [reflexivity|].
      destruct (Ascii.eqb d "/") eqn:Ed.
      - rewrite IH2. apply Ascii.eqb_eq in Ed. now subst d.
      - now rewrite IH1. }
    split; [exact Hf|].
    transitivity (collapse_slashes false (String c q)); [|exact Hf].
    cbn [collapse_slashes]. rewrite E. reflexivity.
Qed.

Lemma slash_before_parameters_plain (q : string) :
  forall b, plain_from b q = true -> slash_before_parameters q = q.
Proof.
  induction q as [|c q IH]; [reflexivity|]. intros b.
  cbn [plain_from slash_before_parameters].
  destruct (Ascii.eqb c "/") eqn:E.
  - intros H. apply andb_true_iff in H as [_ H]. rewrite (IH _ H).
    destruct q as [|d q]; [reflexivity|]. cbn [plain_from] in H.
    destruct (Ascii.eqb d "/") eqn:Ed; [discriminate H|].
    apply andb_true_iff in H as [Hd _].
    destruct (unreserved_plain d Hd) as (_ & _ & _ & _ & -> & -> & ->).
    reflexivity.
  - intros H. apply andb_true_iff in H as [_ H]. now rewrite (IH _ H).
Qed.

Lemma later_question_marks_plain (q : string) :
  forall b n, plain_from b q = true -> later_question_marks n q = q.
Proof.
  induction q as [|c q IH]; [now destruct n|]. intros b n.
  cbn [plain_from].
  assert (Hstep : line_end c = false -> Ascii.eqb c "?" = false ->
                  forall b', plain_from b' q = true ->
                  later_question_marks n (String c q) = String c q).
  { intros Hl Hq b' H. cbn [later_question_marks]. rewrite Hl, Hq.
    cbn [andb]. destruct n as [|[|n]]; now rewrite (IH _ _ H). }
  destruct (Ascii.eqb c "/") eqn:E.
  - apply Ascii.eqb_eq in E. subst c. intros H.
    apply andb_true_iff in H as [_ H]. now apply (Hstep eq_refl eq_refl true).
  - intros H. apply andb_true_iff in H as [Hc H].
    destruct (unreserved_plain c Hc) as (_ & _ & Hl & _ & Hq & _).
    now apply (Hstep Hl Hq false).
Qed.

(** On a plain path [url-join] puts the path after the base as it is. *)
Lemma url_join_plain (p : string) :
  plain_path p = true -> url_join API_BASE p = API_BASE ++ p.
Proof.
  destruct p as [|c q]; [discriminate|]. cbn [plain_path]. intros H.
  apply andb_true_iff in H as [E H]. apply Ascii.eqb_eq in E. subst c.
  unfold url_join, normalize, API_BASE.
  change (protocol_slashes ("https://api.binance.com/api" ++ "/" ++ String "/" q))
    with ("https:///api.binance.com/api//" ++ protocol_slashes q).
  rewrite (protocol_slashes_plain q true H).
  change (collapse_slashes false ("https:///api.binance.com/api//" ++ q))
    with ("https://api.binance.com/api/" ++ collapse_slashes true q).
  destruct (collapse_slashes_plain q true H) as [_ ->].
  assert (Hq : match q with
               | String c q' => if Ascii.eqb c "/" then q' else q
               | EmptyString => q
               end = q).
  { destruct q as [|d q]; [reflexivity|]. cbn [plain_from] in H.
    now destruct (Ascii.eqb d "/"). }
  rewrite Hq.
  change (slash_before_parameters ("https://api.binance.com/api/" ++ q))
    with ("https://api.binance.com/api"
          ++ slash_before_parameters (String "/" q)).
  rewrite (slash_before_parameters_plain (String "/" q) false)
    by (cbn [plain_from Ascii.eqb Bool.eqb negb andb]; exact H).
  change (later_question_marks 0 ("https://api.binance.com/api" ++ String "/" q))
    with ("https://api.binance.com/api" ++ later_question_marks 0 (String "/" q)).
  rewrite (later_question_marks_plain (String "/" q) false 0)
    by (cbn [plain_from Ascii.eqb Bool.eqb negb andb]; exact H).
  reflexivity.
Qed.

(* ------------------------------------------------------------------ *)
(** ** Signing ([utils.getHmac])                                       *)
(* ------------------------------------------------------------------ *)

Lemma to_hex_length (bs : list byte) :
  String.length (to_hex bs) = (2 * List.length bs)%nat.
Proof.
  induction bs as [|b bs IH]; [reflexivity|].
  cbn [to_hex String.length List.length]. rewrite IH. lia.
Qed.

Lemma hex_digit_lower (n : N) : lower_hex (hex_digit n) = true.
Proof.
  destruct n as [|p]; [reflexivity|].
  do 4 (destruct p as [p|p|]; try reflexivity).
Qed.

Lemma to_hex_lower (bs : list byte) :
  forallb lower_hex (list_ascii_of_string (to_hex bs)) = true.
Proof.
  induction bs as [|b bs IH]; [reflexivity|].
  cbn [to_hex list_ascii_of_string forallb].
  now rewrite !hex_digit_lower, IH.
Qed.

Lemma sha256_digest_length (msg : list byte) :
  List.length (SHA256.digest msg) = 32%nat.
Proof.
  unfold SHA256.digest, SHA256.regs_bytes, SHA256.word_bytes.
  rewrite !length_app. reflexivity.
Qed.

Lemma getHmac_unfold (input secret : string) :
  utils.getHmac input secret
  = to_hex (HMAC.hmac_sha256 (list_byte_of_string secret)
              (list_byte_of_string input)).
Proof. reflexivity. Qed.

Lemma getHmac_is_hex_lowercase (input secret : string) :
  forallb lower_hex (list_ascii_of_string (utils.getHmac input secret)) = true.
Proof. rewrite getHmac_unfold. apply to_hex_lower. Qed.

Lemma getHmac_length (input secret : string) :
  String.length (utils.getHmac input secret) = 64%nat.
Proof.
  rewrite getHmac_unfold, to_hex_length. unfold HMAC.hmac_sha256.
  now rewrite sha256_digest_length.
Qed.

Lemma getHmac_needs_no_escaping (input secret : string) :
  Querystring.escape (utils.getHmac input secret) = utils.getHmac input secret.
Proof.
  apply escape_lower_hex.
  apply (getHmac_is_hex_lowercase input secret).
Qed.

(** C8: [getHmac(input, secret)] is the lowercase hexadecimal rendering
    (64 digits) of HMAC-SHA256 of the bytes of [input] keyed with the bytes
    of [secret] as they are; calling it twice on the same arguments gives
    the same digest. *)
Theorem getHmac_is_hex_hmac_sha256 (input secret : string) :
  utils.getHmac input secret
  = to_hex (HMAC.hmac_sha256 (list_byte_of_string secret)
              (list_byte_of_string input))
  /\ String.length (utils.getHmac input secret) = 64%nat
  /\ forallb lower_hex (list_ascii_of_string (utils.getHmac input secret))
     = true
  /\ (let first := utils.getHmac input secret in
      let second := utils.getHmac input secret in
      first = second).
Proof.
  rewrite getHmac_unfold. split; [reflexivity|]. split; [|split].
  - rewrite to_hex_length. unfold HMAC.hmac_sha256.
    now rewrite sha256_digest_length.
  - apply to_hex_lower.
  - reflexivity.
Qed.

(* ------------------------------------------------------------------ *)
(** ** Status classification                                           *)
(* ------------------------------------------------------------------ *)

(** The table [classify] implements, over all integers. *)
Lemma classify_table (d : json) (txt : string) (st : Z) :
  let r := Axios.mkResponse d st txt in
  (400 <= st <= 499 ->
   classify r = Throw (Errors.MalformedRequestError d txt st))
  /\ (st = 504 ->
      classify r = Throw (Errors.RequestResultUnknownError d txt st))
  /\ (500 <= st <= 599 -> st <> 504 ->
      classify r = Throw (Errors.InternalRequestError d txt st))
  /\ (st < 400 \/ 599 < st -> classify r = Ok r).
Proof.
  unfold classify. cbn [Axios.status Axios.response_data Axios.statusText].
  repeat split; intros;
    repeat match goal with
           | |- context [(?a <=? ?b)%Z] => destruct (Z.leb_spec a b)
           | |- context [(?a =? ?b)%Z] => destruct (Z.eqb_spec a b)
           end; cbn [andb]; try reflexivity; lia.
Qed.

(** C2: a response with status 600 on a public endpoint is returned to the
    caller as a success; no error is raised for it. *)
Theorem status_600_is_returned_as_success :
  snd (http (Scenario.answers 600 (JObj [])) Demo.anonymous
         ENDPOINTS.PING None (module_loaded Demo.clock))
  = Ok (Axios.mkResponse (JObj []) 600 EmptyString).
Proof. vm_compute. reflexivity. Qed.

(* ------------------------------------------------------------------ *)
(** ** Construction                                                    *)
(* ------------------------------------------------------------------ *)

Lemma new_RestClient_config (opts : option RestClientOptions) (s : state) :
  effective_config (snd (new_RestClient opts s))
  = Some (Axios.assign (axios_defaults s)
            (default Axios.empty
               (axiosOptions (default (mkOptions None None None) opts))))
  /\ axios_defaults (fst (new_RestClient opts s))
     = Axios.assign (axios_defaults s)
         (default Axios.empty
            (axiosOptions (default (mkOptions None None None) opts))).
Proof. split; reflexivity. Qed.

(** C6: after a client was made with [axiosOptions: {timeout: 50}], a
    client made without any override works with timeout 50, not with the
    module's 15000: the first construction has overwritten the shared
    defaults. *)
Theorem override_leaks_into_later_clients :
  Axios.timeout <$> effective_config Scenario.second_client
  = Some (Some (Axios.number 50))
  /\ Axios.timeout (axios_defaults Scenario.after_quick)
     = Some (Axios.number 50)
  /\ Axios.timeout AXIOS_DEFAULTS = Some (Axios.number 15000).
Proof. repeat split. Qed.

(* ------------------------------------------------------------------ *)
(** ** Outcomes of [http]                                              *)
(* ------------------------------------------------------------------ *)

Lemma classify_never_HttpError (r : Axios.AxiosResponse) (msg stack : string) :
  classify r <> Throw (Errors.HttpError msg stack).
Proof.
  unfold classify.
  repeat match goal with
         | |- context [if ?b then _ else _] => destruct b
         end; discriminate.
Qed.


(** C7: when the transport rejects the request with an error, [http]
    throws an [HttpError] that carries it: the message of the [HttpError]
    is the rendering of the error, which is its name, a colon and its
    message when it has both, and the stack is the error's stack.  An
    [HttpError] is thrown only then: never when a response, whatever its
    status, was received. *)
Theorem transport_failure_is_HttpError net this ep opts s :
  let run := http net this ep opts s in
  (forall w e,
      wire (fst run) = (wire s ++ [w])%list ->
      net (sent_by w) (sent_config w) (sent_objs w) = Axios.Rejected e ->
      snd run
      = Throw (Errors.HttpError
                 (Errors.render (Axios.error_name e) (Axios.error_message e))
                 (Axios.error_stack e))
      /\ (Axios.error_name e <> EmptyString ->
          Axios.error_message e <> EmptyString ->
          snd run
          = Throw (Errors.HttpError
                     (Axios.error_name e ++ ": " ++ Axios.error_message e)
                     (Axios.error_stack e))))
  /\ (forall msg stack,
         snd run = Throw (Errors.HttpError msg stack) ->
         exists w e,
           wire (fst run) = (wire s ++ [w])%list
           /\ net (sent_by w) (sent_config w) (sent_objs w) = Axios.Rejected e
           /\ msg = Errors.render (Axios.error_name e) (Axios.error_message e)
           /\ stack = Axios.error_stack e).
Proof.
  destruct (http_run net this ep opts s) as (s' & r & Hrun & Hout & _).
  rewrite Hrun. cbn [fst snd].
  destruct Hout as [s' _ _ Hw | s' _ _ _ Hw | s' w0 _ _ Hw _ _ _ _ _ _].
  - split; [|discriminate].
    intros w e H. rewrite Hw in H. now apply app_one_not_nil in H.
  - split; [|discriminate].
    intros w e H. rewrite Hw in H. now apply app_one_not_nil in H.
  - split.
    + intros w e H Hnet. rewrite Hw in H.
      apply app_inj_tail in H as [_ <-]. rewrite Hnet.
      split; [reflexivity|]. intros Hn Hm. cbn [settle].
      unfold Errors.new_HttpError, Errors.render.
      destruct (Axios.error_name e); [congruence|].
      now destruct (Axios.error_message e).
    + intros msg stack Hr.
      destruct (net (sent_by w0) (sent_config w0) (sent_objs w0))
        as [resp|e] eqn:Hnet; cbn [settle] in Hr.
      * now apply classify_never_HttpError in Hr.
      * exists w0, e. split; [exact Hw|]. split; [exact Hnet|].
        unfold Errors.new_HttpError in Hr. now injection Hr as <- <-.
Qed.

Lemma transport_failure_is_HttpError_witness :
  let run := http Scenario.times_out Demo.anonymous ENDPOINTS.PING None
               (module_loaded Demo.clock) in
  wire (fst run) = [Scenario.only_request (fst run)]
  /\ snd run = Throw (Errors.HttpError "Error: timeout of 50ms exceeded" EmptyString).
Proof.
  split; [vm_compute; reflexivity|].
  apply (proj1 (transport_failure_is_HttpError Scenario.times_out
                  Demo.anonymous ENDPOINTS.PING None
                  (module_loaded Demo.clock))
           (Scenario.only_request
              (fst (http Scenario.times_out Demo.anonymous ENDPOINTS.PING None
                      (module_loaded Demo.clock))))
           Scenario.timeout_error).
  - vm_compute. reflexivity.
  - reflexivity.
  - discriminate.
  - discriminate.
Defined.

Lemma http_without_apikey net this ep opts s :
  Models.security ep <> Models.NONE ->
  truthy (apikey (options this)) = false ->
  exists s2,
    wire s2 = wire s
    /\ forall that,
        truthy (apikey (options that)) = false ->
        http net that ep opts s
        = (s2, Throw (Errors.MissingCredentialsError (apikey_message ep))).
Proof.
  intros Hsec _.
  destruct (stage_run (method_of ep) opts s) as (s2 & o & h & i & Hst & F).
  exists s2. split; [apply (st_wire _ _ _ _ _ _ _ F)|].
  intros that Hkey. unfold http. fold (method_of ep).
  rewrite (bind_run _ _ _ _ _ Hst).
  now rewrite (bind_throw _ _ _ _ _
                 (require_apikey_missing that ep h s2 Hsec Hkey)).
Qed.

Lemma http_without_apisecret net this ep opts s :
  Models.security ep = Models.SIGNED ->
  truthy (apikey (options this)) = true ->
  exists s3,
    wire s3 = wire s
    /\ forall that,
        apikey (options that) = apikey (options this) ->
        truthy (apisecret (options that)) = false ->
        http net that ep opts s
        = (s3, Throw (Errors.MissingCredentialsError (apisecret_message ep))).
Proof.
  intros Hsig Hkey.
  assert (Hsec : Models.security ep <> Models.NONE) by congruence.
  destruct (stage_run (method_of ep) opts s) as (s2 & o & h & i & Hst & F).
  eexists. split; [|intros that Hsame Hno; unfold http; fold (method_of ep)].
  2:{ rewrite (bind_run _ _ _ _ _ Hst).
      rewrite (bind_run _ _ _ _ _
                 (require_apikey_present that ep h s2 Hsec
                    ltac:(now rewrite Hsame))).
      rewrite (bind_throw _ _ _ _ _
                 (sign_inputs_missing that ep i _ Hsig Hno)).
      rewrite Hsame. reflexivity. }
  cbn [set_objs wire]. apply (st_wire _ _ _ _ _ _ _ F).
Qed.

(** C10: an empty-string credential behaves as an absent one.  With the
    API key empty, a call of a non-public endpoint ends exactly as it does
    without a key (same error, same final state, nothing sent); with the key
    present and the secret empty, a call of a signed endpoint ends exactly as
    it does without a secret. *)
Theorem empty_credential_is_absent net this ep opts s :
  (Models.security ep <> Models.NONE ->
   http net (with_apikey (Some EmptyString) this) ep opts s
   = http net (with_apikey None this) ep opts s
   /\ snd (http net (with_apikey (Some EmptyString) this) ep opts s)
      = Throw (Errors.MissingCredentialsError (apikey_message ep))
   /\ wire (fst (http net (with_apikey (Some EmptyString) this) ep opts s))
      = wire s)
  /\ (Models.security ep = Models.SIGNED ->
      truthy (apikey (options this)) = true ->
      http net (with_apisecret (Some EmptyString) this) ep opts s
      = http net (with_apisecret None this) ep opts s
      /\ snd (http net (with_apisecret (Some EmptyString) this) ep opts s)
         = Throw (Errors.MissingCredentialsError (apisecret_message ep))
      /\ wire (fst (http net (with_apisecret (Some EmptyString) this) ep opts s))
         = wire s).
Proof.
  split.
  - intros Hsec.
    destruct (http_without_apikey net (with_apikey None this) ep opts s Hsec
                eq_refl) as (s2 & Hw & H).
    rewrite (H (with_apikey (Some EmptyString) this) eq_refl).
    rewrite (H (with_apikey None this) eq_refl).
    now repeat split.
  - intros Hsig Hkey.
    destruct (http_without_apisecret net this ep opts s Hsig Hkey)
      as (s3 & Hw & H).
    rewrite (H (with_apisecret (Some EmptyString) this) eq_refl eq_refl).
    rewrite (H (with_apisecret None this) eq_refl eq_refl).
    now repeat split.
Qed.

Lemma empty_credential_is_absent_witness :
  (Models.security ENDPOINTS.ACCOUNT <> Models.NONE
   /\ snd (http (Demo.ok200 JNull) (with_apikey (Some EmptyString) Demo.keyed)
             ENDPOINTS.ACCOUNT None (module_loaded Demo.clock))
      = Throw (Errors.MissingCredentialsError
                 "SIGNED HTTP endpoints require opts.apikey to be provided"))
  /\ (Models.security ENDPOINTS.ACCOUNT = Models.SIGNED
      /\ truthy (apikey (options Demo.keyed)) = true
      /\ snd (http (Demo.ok200 JNull) (with_apisecret (Some EmptyString) Demo.keyed)
                ENDPOINTS.ACCOUNT None (module_loaded Demo.clock))
         = Throw (Errors.MissingCredentialsError
                    "SIGNED HTTP endpoints require opts.apisecret to be provided")).
Proof.
  pose proof (empty_credential_is_absent (Demo.ok200 JNull) Demo.keyed
                ENDPOINTS.ACCOUNT None (module_loaded Demo.clock)) as [H1 H2].
  split.
  - split; [discriminate|]. apply H1. discriminate.
  - split; [reflexivity|]. split; [reflexivity|].
    apply H2; reflexivity.
Defined.

Lemma staged_inputs_copy (s : state) (m : Models.Method) (opts : option loc) :
  staged_inputs s m opts = obj_assign [] (caller_params s m opts).
Proof.
  unfold staged_inputs, caller_params, props_of_ref, props_of_body.
  destruct (decide (m = Models.GET)).
  - now destruct (Axios.params (given_options s opts)).
  - now destruct (Axios.data (given_options s opts)) as [[l|t]|].
Qed.

Lemma truthy_nonempty (key : string) : key <> EmptyString -> truthy (Some key) = true.
Proof. destruct key; [congruence|reflexivity]. Qed.

Lemma staged_without (k : string) (s : state) (m : Models.Method)
    (opts : option loc) :
  obj_get k (caller_params s m opts) = None ->
  obj_get k (staged_inputs s m opts) = None.
Proof.
  intros H. rewrite staged_inputs_copy. now apply obj_assign_absent.
Qed.



Lemma stamp_and_sign_spec (t : Z) (secret : string) (staged : obj) :
  obj_get "signature" staged = None ->
  let stamped := obj_set "timestamp" (VNum t) staged in
  let sig := utils.getHmac (qstringify stamped) secret in
  stamp_and_sign t secret staged = (stamped ++ [("signature", VStr sig)])%list
  /\ obj_get "timestamp" (stamp_and_sign t secret staged) = Some (VNum t)
  /\ obj_get "signature" (stamp_and_sign t secret staged) = Some (VStr sig)
  /\ obj_delete "signature" (stamp_and_sign t secret staged) = stamped.
Proof.
  intros Hnone stamped sig.
  assert (Hs : obj_get "signature" stamped = None).
  { unfold stamped. now rewrite obj_get_set_ne. }
  unfold stamp_and_sign. fold stamped. fold sig. repeat split.
  - now apply obj_set_new.
  - rewrite obj_get_set_ne by discriminate. apply obj_get_set_eq.
  - apply obj_get_set_eq.
  - now apply obj_delete_set_new.
Qed.









(** C4: what [http] adds to what it was given is decided by the security
    level alone.  On a NONE endpoint the request has the caller's headers
    and the copy of the caller's parameters as they are, whatever
    credentials the client holds; on an API-KEY endpoint (key configured) it
    has the caller's headers with [X-MBX-APIKEY] set to the key, and again
    just the copy of the caller's parameters.  The copy has no key the
    caller's parameters lack: no [timestamp] and no [signature] is added;
    what the caller's own objects hold is sent. *)
Theorem tier_decides_what_is_attached net this ep opts s :
  headers_allocated s opts = true ->
  let run := http net this ep opts s in
  let staged := staged_inputs s (method_of ep) opts in
  (Models.security ep = Models.NONE ->
   exists w,
     wire (fst run) = (wire s ++ [w])%list
     /\ sent_headers w = given_headers s opts
     /\ carries w (method_of ep) staged)
  /\ (Models.security ep = Models.API_KEY ->
      forall key, apikey (options this) = Some key -> key <> EmptyString ->
      exists w,
        wire (fst run) = (wire s ++ [w])%list
        /\ sent_headers w
           = obj_set "X-MBX-APIKEY" (VStr key) (given_headers s opts)
        /\ obj_get "X-MBX-APIKEY" (sent_headers w) = Some (VStr key)
        /\ carries w (method_of ep) staged)
  /\ (forall k,
         obj_get k (caller_params s (method_of ep) opts) = None ->
         obj_get k staged = None).
Proof.
  intros Ha run staged. subst run staged. split; [|split].
  - intros Hnone.
    destruct (http_sends net this ep opts s (or_introl Hnone)
                ltac:(congruence)) as (w & Hw & _ & _ & Hh & Hc).
    exists w. specialize (Hh Ha). specialize (Hc Ha).
    unfold expected_headers in Hh. rewrite decide_True in Hh by exact Hnone.
    unfold expected_inputs in Hc. rewrite decide_False in Hc by congruence.
    now repeat split.
  - intros Hkeyed key Hkey Hne.
    assert (Ht : truthy (apikey (options this)) = true).
    { rewrite Hkey. now apply truthy_nonempty. }
    destruct (http_sends net this ep opts s (or_intror Ht)
                ltac:(congruence)) as (w & Hw & _ & _ & Hh & Hc).
    exists w. specialize (Hh Ha). specialize (Hc Ha).
    unfold expected_headers in Hh. rewrite decide_False in Hh by congruence.
    unfold expected_inputs in Hc. rewrite decide_False in Hc by congruence.
    rewrite Hkey in Hh. cbn [default] in Hh.
    split; [exact Hw|]. split; [exact Hh|]. split; [|exact Hc].
    rewrite Hh. apply obj_get_set_eq.
  - intros k. apply staged_without.
Qed.

Lemma tier_decides_what_is_attached_witness :
  (exists w,
      wire (fst (http (Demo.ok200 JNull) Demo.keyed ENDPOINTS.PING None
                   (module_loaded Demo.clock))) = [w]
      /\ sent_headers w = []
      /\ carries w Models.GET [])
  /\ (exists w,
         wire (fst (http (Demo.ok200 JNull) Demo.keyed
                      (Models.mkEndpoint "/security/API-KEY" None Models.API_KEY)
                      None (module_loaded Demo.clock))) = [w]
         /\ sent_headers w = [("X-MBX-APIKEY", VStr "an-api-key")]
         /\ obj_get "X-MBX-APIKEY" (sent_headers w) = Some (VStr "an-api-key")
         /\ carries w Models.GET [])
  /\ obj_get "timestamp"
       (staged_inputs (module_loaded Demo.clock) Models.GET None) = None.
Proof.
  split; [|split].
  - apply (proj1 (tier_decides_what_is_attached (Demo.ok200 JNull) Demo.keyed
                    ENDPOINTS.PING None (module_loaded Demo.clock) eq_refl)).
    reflexivity.
  - apply (proj1 (proj2 (tier_decides_what_is_attached (Demo.ok200 JNull)
                    Demo.keyed
                    (Models.mkEndpoint "/security/API-KEY" None Models.API_KEY)
                    None (module_loaded Demo.clock) eq_refl))
             eq_refl "an-api-key" eq_refl).
    discriminate.
  - apply (proj2 (proj2 (tier_decides_what_is_attached (Demo.ok200 JNull)
                    Demo.keyed ENDPOINTS.PING None (module_loaded Demo.clock)
                    eq_refl))).
    reflexivity.
Defined.

(** C4, as stated, fails when the options object given has been used for
    a signed call before: that call has left its header container, with
    the API key, and its parameters, with [timestamp] and [signature], in
    the options object, and [http(ENDPOINTS.PING, opts)] sends all three on
    a NONE endpoint. *)
Lemma used_options_carry_credentials :
  Models.security ENDPOINTS.PING = Models.NONE
  /\ wire ping_after_signed
     = (wire Scenario.reuse_first ++ [ping_request])%list
  /\ obj_get "X-MBX-APIKEY" (sent_headers ping_request)
     = Some (VStr "an-api-key")
  /\ exists params sig,
       sent_params ping_request = Some params
       /\ obj_get "timestamp" params = Some (VNum Demo.clock)
       /\ obj_get "signature" params = Some (VStr sig)
       /\ transmitted ping_request
          = Some ("symbol=LTCBTC&timestamp=1499827319559&signature=" ++ sig).
Proof.
  do 3 (split; [vm_compute; reflexivity|]).
  do 2 eexists. repeat (split; [vm_compute; reflexivity|]).
  vm_compute. reflexivity.
Qed.

(* ------------------------------------------------------------------ *)
(** ** What a call does to the caller's objects                        *)
(* ------------------------------------------------------------------ *)

(** C5: a call leaves every object the caller had, other than the header
    container of an authenticated call, as it was: in particular the
    caller's [params]/[data] mapping, since the working mapping that is sent
    is an object that did not exist before.  The options object itself is
    not left alone: after a request it is the very options the request was
    made with. *)
Theorem caller_parameters_are_left_alone net this ep opts s :
  let s' := fst (http net this ep opts s) in
  (forall l x,
      objs s !! l = Some x ->
      Models.security ep = Models.NONE
      \/ Axios.headers (given_options s opts) <> Some l ->
      objs s' !! l = Some x)
  /\ (forall w,
         wire s' = (wire s ++ [w])%list ->
         (forall p, Axios.params (sent_config w) = Some p -> objs s !! p = None)
         /\ (forall l, opts = Some l -> cfgs s' !! l = Some (sent_config w))).
Proof.
  destruct (http_run net this ep opts s) as (s' & r & Hrun & Hout & Hframe & _).
  rewrite Hrun. cbn [fst]. split; [exact Hframe|].
  intros w Hw.
  destruct Hout as [s' _ _ Hw' | s' _ _ _ Hw' | s' w0 _ _ Hw' _ _ Hcfg Hp _ _].
  - rewrite Hw' in Hw. now apply app_one_not_nil in Hw.
  - rewrite Hw' in Hw. now apply app_one_not_nil in Hw.
  - rewrite Hw' in Hw. apply app_inj_tail in Hw as [_ <-]. now split.
Qed.

Lemma caller_parameters_are_left_alone_witness :
  objs Scenario.reuse_first !! 1%positive = Some [("symbol", VStr "LTCBTC")]
  /\ (wire Scenario.reuse_first
      = [Scenario.only_request Scenario.reuse_first]
      /\ cfgs Scenario.reuse_first !! 1%positive
         = Some (sent_config (Scenario.only_request Scenario.reuse_first))).
Proof.
  pose proof (caller_parameters_are_left_alone (Demo.ok200 (JArr []))
                Demo.keyed ENDPOINTS.ALLORDERS (Some 1%positive)
                Scenario.reuse_start) as [H1 H2].
  split.
  - apply H1; [reflexivity|]. right. vm_compute. discriminate.
  - assert (Hw : wire Scenario.reuse_first
                 = [Scenario.only_request Scenario.reuse_first])
      by (vm_compute; reflexivity).
    split; [exact Hw|]. now apply (H2 _ Hw).
Defined.

(** C5, as stated, fails for the options object: after
    [http(ALLORDERS, opts)] the object [opts] has a [url] and its [params]
    refers to another object than the caller's. *)
Lemma options_object_is_overwritten :
  cfgs Scenario.reuse_start !! 1%positive
  = Some (Axios.set_params 1%positive Axios.empty)
  /\ ~ caller_objects_unchanged 1%positive 1%positive
         Scenario.reuse_start Scenario.reuse_first.
Proof.
  split; [reflexivity|].
  intros [H _].
  apply (f_equal (fmap Axios.params)) in H.
  vm_compute in H. discriminate.
Qed.

(** The header container is the one object of the caller's that a call
    writes into: on a non-public endpoint it receives the API key. *)
Example caller_headers_receive_the_key :
  let s := mkState {[ 7%positive := [("Accept", VStr "application/json")] ]}
                   {[ 1%positive :=
                        Axios.mkConfig None None (Some 7%positive) None None
                                       None None [] ]}
                   AXIOS_DEFAULTS Demo.clock [] in
  objs (fst (http (Demo.ok200 JNull) Demo.keyed ENDPOINTS.ACCOUNT
               (Some 1%positive) s)) !! 7%positive
  = Some [("Accept", VStr "application/json");
          ("X-MBX-APIKEY", VStr "an-api-key")].
Proof. vm_compute. reflexivity. Qed.

(* ------------------------------------------------------------------ *)
(** ** [getOrderBook]                                                  *)
(* ------------------------------------------------------------------ *)

Lemma map_entries_raw (l : list (string * string)) :
  map_entries (List.map raw_pair l) = Ok (List.map friendly_entry l).
Proof.
  induction l as [|pq l IH]; [reflexivity|].
  cbn [List.map map_entries]. rewrite IH. reflexivity.
Qed.

Lemma reshape_raw_order_book (id : Z) (bids asks : list (string * string)) :
  reshape_order_book (raw_order_book id bids asks)
  = Ok (Models.mkOrderBook (Some (JNum id))
          (List.map friendly_entry bids) (List.map friendly_entry asks)).
Proof.
  unfold reshape_order_book, raw_order_book.
  cbn [json_prop assoc_json String.eqb Ascii.eqb Bool.eqb map_side].
  now rewrite !map_entries_raw.
Qed.

(** C9: [getOrderBook] makes one request; when the response to it is a
    success with payload [{lastUpdateId, bids, asks}], the bids and asks
    being lists of [[price, quantity]] string pairs, the value returned
    keeps [lastUpdateId] and has, for each pair and in the same order, the
    object [{price, quantity}]. *)
Theorem getOrderBook_reshapes net this symbol limit s :
  let run := getOrderBook net this symbol limit s in
  exists w,
    wire (fst run) = (wire s ++ [w])%list
    /\ forall resp id bids asks,
        net (sent_by w) (sent_config w) (sent_objs w) = Axios.Resolved resp ->
        200 <= Axios.status resp <= 399 ->
        Axios.response_data resp = raw_order_book id bids asks ->
        snd run
        = Ok (Models.mkOrderBook (Some (JNum id))
                (List.map friendly_entry bids)
                (List.map friendly_entry asks)).
Proof.
  cbv zeta. unfold getOrderBook.
  rewrite (bind_run (new_obj _) _ s _ _ eq_refl).
  rewrite (bind_run (new_cfg _) _ _ _ _ eq_refl).
  set (s2 := set_cfgs _ _). set (o := fresh _).
  destruct (http_sends net this ENDPOINTS.ORDERBOOK (Some o) s2
              (or_introl eq_refl) ltac:(discriminate))
    as (w & Hw & Hr & _).
  unfold bind.
  destruct (http net this ENDPOINTS.ORDERBOOK (Some o) s2) as [s3 r] eqn:Hrun.
  cbn [fst snd] in Hw, Hr. exists w. split.
  - destruct r; cbn [fst lift]; exact Hw.
  - intros resp id bids asks Hnet Hst Hdata.
    rewrite Hnet in Hr. cbn [settle] in Hr.
    destruct resp as [d st txt]. cbn [Axios.status Axios.response_data] in *.
    destruct (classify_table d txt st) as (_ & _ & _ & Hok).
    rewrite Hok in Hr by lia. subst r d.
    cbn [lift snd Axios.response_data]. apply reshape_raw_order_book.
Qed.

Lemma getOrderBook_reshapes_witness :
  let net := Demo.ok200 (raw_order_book 1 [("4.0", "431.0")]
                                          [("4.0002", "12.0")]) in
  snd (getOrderBook net Demo.anonymous "BTC" None (module_loaded Demo.clock))
  = Ok (Models.mkOrderBook (Some (JNum 1))
          [Models.mkOrderBookEntry (Some (JStr "4.0")) (Some (JStr "431.0"))]
          [Models.mkOrderBookEntry (Some (JStr "4.0002")) (Some (JStr "12.0"))]).
Proof.
  intros net.
  destruct (getOrderBook_reshapes net Demo.anonymous "BTC" None
              (module_loaded Demo.clock)) as (w & _ & H).
  apply (H (Axios.mkResponse (raw_order_book 1 [("4.0", "431.0")]
                                               [("4.0002", "12.0")]) 200 "OK")
           1 [("4.0", "431.0")] [("4.0002", "12.0")]).
  - reflexivity.
  - cbn. lia.
  - reflexivity.
Defined.

(* ------------------------------------------------------------------ *)
(** ** More on [http]                                                  *)
(* ------------------------------------------------------------------ *)


Lemma http_wire_cases net this ep opts s :
  let run := http net this ep opts s in
  if credentials_ok this ep
  then exists w,
         wire (fst run) = (wire s ++ [w])%list
         /\ sent_by w = axios this
         /\ snd run = settle (net (sent_by w) (sent_config w) (sent_objs w))
  else wire (fst run) = wire s
       /\ exists msg, snd run = Throw (Errors.MissingCredentialsError msg).
Proof.
  destruct (http_tail_cases net this ep opts s)
    as (s2 & o & h & i & s' & r & _ & _ & Hrun & [H|H]).
  - destruct H as (-> & _ & Hw & Hr). cbv zeta. now rewrite Hrun.
  - destruct H as (-> & c & _ & _ & Hw & Hr). cbv zeta. rewrite Hrun.
    eexists. split; [exact Hw|]. split; [reflexivity|exact Hr].
Qed.

(** X1: a call of [http] hands at most one request to axios: exactly one
    when the credentials the endpoint needs are there (and the result is
    then made from what that request settled to), none at all when one is
    missing, in which case the call throws [MissingCredentialsError]. *)
Theorem http_sends_once_or_not_at_all net this ep opts s :
  let run := http net this ep opts s in
  if credentials_ok this ep
  then exists w,
         wire (fst run) = (wire s ++ [w])%list
         /\ sent_by w = axios this
         /\ snd run = settle (net (sent_by w) (sent_config w) (sent_objs w))
  else wire (fst run) = wire s
       /\ exists msg, snd run = Throw (Errors.MissingCredentialsError msg).
Proof.
  exact (http_wire_cases net this ep opts s).
Qed.

Lemma classify_Ok_inv (resp resp' : Axios.AxiosResponse) :
  classify resp = Ok resp' ->
  resp' = resp /\ (Axios.status resp < 400 \/ 599 < Axios.status resp).
Proof.
  unfold classify.
  repeat match goal with
         | |- context [(?a <=? ?b)%Z] => destruct (Z.leb_spec a b)
         | |- context [(?a =? ?b)%Z] => destruct (Z.eqb_spec a b)
         end; cbn [andb]; intros [= <-]; split; try reflexivity; lia.
Qed.

Lemma classify_Throw_inv (resp : Axios.AxiosResponse) (e : Errors.t) :
  classify resp = Throw e ->
  (e = Errors.MalformedRequestError (Axios.response_data resp)
         (Axios.statusText resp) (Axios.status resp)
   /\ 400 <= Axios.status resp <= 499)
  \/ (e = Errors.RequestResultUnknownError (Axios.response_data resp)
            (Axios.statusText resp) (Axios.status resp)
      /\ Axios.status resp = 504)
  \/ (e = Errors.InternalRequestError (Axios.response_data resp)
            (Axios.statusText resp) (Axios.status resp)
      /\ 500 <= Axios.status resp <= 599 /\ Axios.status resp <> 504).
Proof.
  unfold classify. cbv zeta.
  repeat match goal with
         | |- context [(?a <=? ?b)%Z] => destruct (Z.leb_spec a b)
         | |- context [(?a =? ?b)%Z] => destruct (Z.eqb_spec a b)
         end; cbn [andb]; intros [= <-]; auto with lia.
Qed.

(** X2: what the caller gets for a response depends on its status alone:
    400-499 throws [MalformedRequestError], 504 throws
    [RequestResultUnknownError], any other 500-599 throws
    [InternalRequestError], each holding the response's body, status text
    and status; every other status, below 400 or above 599, returns the
    response itself. *)
Theorem http_outcome_by_status net this ep opts s w resp :
  let run := http net this ep opts s in
  wire (fst run) = (wire s ++ [w])%list ->
  net (sent_by w) (sent_config w) (sent_objs w) = Axios.Resolved resp ->
  let d := Axios.response_data resp in
  let txt := Axios.statusText resp in
  let st := Axios.status resp in
  (400 <= st <= 499 ->
   snd run = Throw (Errors.MalformedRequestError d txt st))
  /\ (st = 504 ->
      snd run = Throw (Errors.RequestResultUnknownError d txt st))
  /\ (500 <= st <= 599 -> st <> 504 ->
      snd run = Throw (Errors.InternalRequestError d txt st))
  /\ (st < 400 \/ 599 < st -> snd run = Ok resp).
Proof.
  intros run Hw Hnet d txt st. subst run.
  pose proof (http_wire_cases net this ep opts s) as H.
  cbv zeta in H. destruct (credentials_ok this ep).
  - destruct H as (w0 & Hw0 & _ & Hr). rewrite Hw0 in Hw.
    apply app_inj_tail in Hw as [_ ->]. rewrite Hnet in Hr. cbn [settle] in Hr.
    rewrite Hr. destruct resp as [d0 st0 txt0]. apply classify_table.
  - destruct H as [H _]. rewrite H in Hw. now apply app_one_not_nil in Hw.
Qed.

Lemma http_outcome_by_status_witness :
  let run := http (Scenario.answers 406 Scenario.sample_error) Demo.keyed
               ENDPOINTS.ORDER None (module_loaded Demo.clock) in
  wire (fst run) = [Scenario.only_request (fst run)]
  /\ snd run
     = Throw (Errors.MalformedRequestError Scenario.sample_error
                EmptyString 406).
Proof.
  split; [vm_compute; reflexivity|].
  apply (proj1 (http_outcome_by_status
                  (Scenario.answers 406 Scenario.sample_error) Demo.keyed
                  ENDPOINTS.ORDER None (module_loaded Demo.clock)
                  (Scenario.only_request
                     (fst (http (Scenario.answers 406 Scenario.sample_error)
                             Demo.keyed ENDPOINTS.ORDER None
                             (module_loaded Demo.clock))))
                  (Axios.mkResponse Scenario.sample_error 406 EmptyString)
                  ltac:(vm_compute; reflexivity) eq_refl)).
  cbn. lia.
Defined.

(** X3: what a caller can read off the result.  A returned response has a
    status outside 400-599; a caught [MalformedRequestError] has a
    [statusCode] in 400-499, a [RequestResultUnknownError] has 504, an
    [InternalRequestError] has one in 500-599 other than 504; and in each
    case the error's fields are those of the response that was received. *)
Theorem http_result_tells_the_status net this ep opts s :
  let run := http net this ep opts s in
  (forall resp, snd run = Ok resp ->
     Axios.status resp < 400 \/ 599 < Axios.status resp)
  /\ (forall d txt st,
         snd run = Throw (Errors.MalformedRequestError d txt st) ->
         400 <= st <= 499)
  /\ (forall d txt st,
         snd run = Throw (Errors.RequestResultUnknownError d txt st) ->
         st = 504)
  /\ (forall d txt st,
         snd run = Throw (Errors.InternalRequestError d txt st) ->
         500 <= st <= 599 /\ st <> 504)
  /\ (forall e, snd run = Throw e ->
         match e with
         | Errors.MalformedRequestError d txt st
         | Errors.RequestResultUnknownError d txt st
         | Errors.InternalRequestError d txt st =>
             exists w,
               wire (fst run) = (wire s ++ [w])%list
               /\ net (sent_by w) (sent_config w) (sent_objs w)
                  = Axios.Resolved (Axios.mkResponse d st txt)
         | _ => True
         end).
Proof.
  cbv zeta.
  pose proof (http_wire_cases net this ep opts s) as H.
  cbv zeta in H. destruct (credentials_ok this ep).
  - destruct H as (w & Hw & _ & Hr). rewrite Hr.
    destruct (net (sent_by w) (sent_config w) (sent_objs w))
      as [resp|err] eqn:Hnet; cbn [settle].
    + split; [|split; [|split; [|split]]].
      * intros resp' H. now apply classify_Ok_inv in H as [-> H].
      * intros d txt st H.
        apply classify_Throw_inv in H as [[[= -> -> ->] H]|[[[=] _]|[[=] _]]].
        exact H.
      * intros d txt st H.
        apply classify_Throw_inv in H as [[[=] _]|[[[= -> -> ->] H]|[[=] _]]].
        exact H.
      * intros d txt st H.
        apply classify_Throw_inv in H
          as [[[=] _]|[[[=] _]|[[= -> -> ->] H]]].
        exact H.
      * intros e H. destruct resp as [d0 st0 txt0].
        apply classify_Throw_inv in H as [[-> _]|[[-> _]|[-> _]]];
          cbn [Axios.response_data Axios.status Axios.statusText];
          exists w; now split.
    + split; [|split; [|split; [|split]]]; try discriminate.
      intros e [= <-]. exact I.
  - destruct H as (_ & msg & ->).
    split; [|split; [|split; [|split]]]; try discriminate.
    intros e [= <-]. exact I.
Qed.

Lemma http_result_tells_the_status_witness :
  let run := http (Scenario.answers 504 Scenario.sample_error) Demo.anonymous
               ENDPOINTS.PING None (module_loaded Demo.clock) in
  snd run
  = Throw (Errors.RequestResultUnknownError Scenario.sample_error
             EmptyString 504)
  /\ 504 = 504.
Proof.
  split; [vm_compute; reflexivity|].
  apply (proj1 (proj2 (proj2 (http_result_tells_the_status
                  (Scenario.answers 504 Scenario.sample_error) Demo.anonymous
                  ENDPOINTS.PING None (module_loaded Demo.clock))))
           Scenario.sample_error EmptyString 504).
  vm_compute. reflexivity.
Defined.

(** X4: a credential the endpoint's security level does not ask for is
    never looked at: on a NONE endpoint the whole run (result, request,
    final state) is the same whatever the API key and secret are, and on an
    API-KEY endpoint it is the same whatever the secret is. *)
Theorem unneeded_credentials_are_ignored net this ep opts s k :
  (Models.security ep <> Models.SIGNED ->
   http net (with_apisecret k this) ep opts s = http net this ep opts s)
  /\ (Models.security ep = Models.NONE ->
      http net (with_apikey k this) ep opts s = http net this ep opts s).
Proof.
  split; intros Hsec; unfold http; apply bind_ext; intros [[o h] i] s2.
  - apply bind_ext. intros _ s3.
    rewrite (bind_run _ _ _ _ _ (sign_inputs_unsigned _ ep i s3 Hsec)).
    now rewrite (bind_run _ _ _ _ _ (sign_inputs_unsigned this ep i s3 Hsec)).
  - rewrite (bind_run _ _ _ _ _ (require_apikey_none _ ep h s2 Hsec)).
    rewrite (bind_run _ _ _ _ _ (require_apikey_none this ep h s2 Hsec)).
    assert (Hns : Models.security ep <> Models.SIGNED) by congruence.
    rewrite (bind_run _ _ _ _ _ (sign_inputs_unsigned _ ep i s2 Hns)).
    now rewrite (bind_run _ _ _ _ _ (sign_inputs_unsigned this ep i s2 Hns)).
Qed.

Lemma unneeded_credentials_are_ignored_witness :
  http (Demo.ok200 JNull) (with_apikey None Demo.keyed) ENDPOINTS.PING None
    (module_loaded Demo.clock)
  = http (Demo.ok200 JNull) Demo.keyed ENDPOINTS.PING None
      (module_loaded Demo.clock)
  /\ http (Demo.ok200 JNull) (with_apisecret None Demo.keyed)
       (Models.mkEndpoint "/security/API-KEY" None Models.API_KEY) None
       (module_loaded Demo.clock)
     = http (Demo.ok200 JNull) Demo.keyed
         (Models.mkEndpoint "/security/API-KEY" None Models.API_KEY) None
         (module_loaded Demo.clock).
Proof.
  split.
  - apply (proj2 (unneeded_credentials_are_ignored (Demo.ok200 JNull)
                    Demo.keyed ENDPOINTS.PING None (module_loaded Demo.clock)
                    None)).
    reflexivity.
  - apply (proj1 (unneeded_credentials_are_ignored (Demo.ok200 JNull)
                    Demo.keyed
                    (Models.mkEndpoint "/security/API-KEY" None Models.API_KEY)
                    None (module_loaded Demo.clock) None)).
    discriminate.
Defined.


(** X5: in the request options the client's values win over the caller's:
    whatever [url], [method], [headers] or [validateStatus] the options
    object held, the request has the endpoint's method (GET when it names
    none) and a [validateStatus] that accepts every status, and it goes to
    the API base followed by the endpoint's path, when that path is a
    plain one (segments of unreserved characters, each begun by one
    slash).  The caller's [timeout] and the settings the client does not
    know are passed on unchanged. *)
Theorem request_options_favour_the_client net this ep opts s w :
  wire (fst (http net this ep opts s)) = (wire s ++ [w])%list ->
  (plain_path (Models.url ep) = true ->
   Axios.url (sent_config w) = Some (API_BASE ++ Models.url ep))
  /\ Axios.method (sent_config w) = Some (method_of ep)
  /\ (exists f, Axios.validateStatus (sent_config w) = Some f
                /\ forall st, f st = true)
  /\ Axios.timeout (sent_config w) = Axios.timeout (given_options s opts)
  /\ Axios.others (sent_config w) = Axios.others (given_options s opts).
Proof.
  destruct (http_tail_cases net this ep opts s)
    as (s2 & o & h & i & s' & r & _ & _ & Hrun & [H|H]); rewrite Hrun;
    cbn [fst].
  - destruct H as (_ & _ & Hw & _). intros Hw'. rewrite Hw in Hw'.
    now apply app_one_not_nil in Hw'.
  - destruct H as (_ & c & Hc & _ & Hw & _). intros Hw'. rewrite Hw in Hw'.
    apply app_inj_tail in Hw' as [_ <-]. cbn [sent_config].
    destruct (request_config_fields ep (method_of ep) h i (deref (objs s') i)
                (Axios.delete_params (Axios.delete_data (given_options s opts))))
      as (H1 & H2 & _ & H4 & H5 & H6).
    rewrite <- Hc in H1, H2, H4, H5, H6.
    split; [intros Hp; now rewrite H1, (url_join_plain _ Hp)|].
    now repeat split.
Qed.

Lemma request_options_favour_the_client_witness :
  let s := mkState ∅
             {[ 1%positive :=
                  Axios.mkConfig (Some "http://elsewhere/") (Some Models.DELETE)
                                 None None None (Some (Axios.number 5000))
                                 (Some (fun st => (st <? 300)%Z)) [] ]}
             AXIOS_DEFAULTS Demo.clock [] in
  let run := http (Demo.ok200 JNull) Demo.anonymous ENDPOINTS.PING
               (Some 1%positive) s in
  wire (fst run) = [Scenario.only_request (fst run)]
  /\ Axios.url (sent_config (Scenario.only_request (fst run)))
     = Some "https://api.binance.com/api/v1/ping"
  /\ Axios.method (sent_config (Scenario.only_request (fst run)))
     = Some Models.GET
  /\ Axios.timeout (sent_config (Scenario.only_request (fst run)))
     = Some (Axios.number 5000).
Proof.
  intros s run.
  assert (Hw : wire (fst run) = ([] ++ [Scenario.only_request (fst run)])%list)
    by (vm_compute; reflexivity).
  destruct (request_options_favour_the_client (Demo.ok200 JNull)
              Demo.anonymous ENDPOINTS.PING (Some 1%positive) s _ Hw)
    as (H1 & H2 & _ & H4 & _).
  split; [exact Hw|]. split; [exact (H1 eq_refl)|].
  split; [exact H2|exact H4].
Defined.

(** X6: the parameter slot the method does not use is dropped: a GET
    request never has a body, whatever [options.data] held, and a request of
    any other method never has query parameters, whatever [options.params]
    held. *)
Theorem unused_parameter_slot_is_dropped net this ep opts s w :
  wire (fst (http net this ep opts s)) = (wire s ++ [w])%list ->
  if decide (method_of ep = Models.GET)
  then sent_data w = None
  else sent_params w = None
       /\ exists text, sent_data w = Some (Axios.BodyText text).
Proof.
  destruct (http_tail_cases net this ep opts s)
    as (s2 & o & h & i & s' & r & _ & _ & Hrun & [H|H]); rewrite Hrun;
    cbn [fst].
  - destruct H as (_ & _ & Hw & _). intros Hw'. rewrite Hw in Hw'.
    now apply app_one_not_nil in Hw'.
  - destruct H as (_ & c & Hc & _ & Hw & _). intros Hw'. rewrite Hw in Hw'.
    apply app_inj_tail in Hw' as [_ <-].
    unfold sent_data, sent_params. cbn [sent_config sent_objs]. subst c.
    destruct (decide (method_of ep = Models.GET)) as [Hm|Hm].
    + rewrite Hm.
      now destruct (request_config_GET ep h i (deref (objs s') i)
                      (Axios.delete_params
                         (Axios.delete_data (given_options s opts))))
        as [_ ->].
    + destruct (request_config_body ep (method_of ep) h i (deref (objs s') i)
                  (Axios.delete_params
                     (Axios.delete_data (given_options s opts))) Hm)
        as [-> ->].
      split; [reflexivity|eauto].
Qed.

Lemma unused_parameter_slot_is_dropped_witness :
  let s := mkState {[ 1%positive := [("symbol", VStr "LTCBTC")] ]}
             {[ 1%positive :=
                  Axios.set_data (Axios.BodyRef 1%positive) Axios.empty ]}
             AXIOS_DEFAULTS Demo.clock [] in
  let run := http (Demo.ok200 JNull) Demo.anonymous ENDPOINTS.ORDERBOOK
               (Some 1%positive) s in
  wire (fst run) = [Scenario.only_request (fst run)]
  /\ sent_data (Scenario.only_request (fst run)) = None.
Proof.
  intros s run.
  assert (Hw : wire (fst run) = ([] ++ [Scenario.only_request (fst run)])%list)
    by (vm_compute; reflexivity).
  split; [exact Hw|].
  exact (unused_parameter_slot_is_dropped (Demo.ok200 JNull) Demo.anonymous
           ENDPOINTS.ORDERBOOK (Some 1%positive) s _ Hw).
Defined.

(** X7: a call writes no options object but the one it was given (one of
    its own making when it was given none), and leaves the clock and the
    module's [AXIOS_DEFAULTS] alone. *)
Theorem http_writes_only_its_options_object net this ep opts s :
  let s' := fst (http net this ep opts s) in
  (forall l c, cfgs s !! l = Some c -> opts <> Some l -> cfgs s' !! l = Some c)
  /\ now s' = now s
  /\ axios_defaults s' = axios_defaults s.
Proof.
  cbv zeta. split.
  - destruct (http_tail_cases net this ep opts s)
      as (s2 & o & h & i & s' & r & Hst & F & Hrun & H).
    rewrite Hrun. cbn [fst]. intros l c Hl Hne.
    assert (Hlo : l <> o).
    { intros ->. destruct opts as [l'|].
      - apply Hne. f_equal. symmetry. now apply (st_opts _ _ _ _ _ _ _ F).
      - rewrite (stage_fresh_options _ _ _ _ _ _ Hst) in Hl. discriminate. }
    destruct H as [(_ & -> & _)|(_ & c' & _ & -> & _)].
    + now rewrite (st_cfg_frame _ _ _ _ _ _ _ F).
    + rewrite lookup_insert_ne by congruence.
      now rewrite (st_cfg_frame _ _ _ _ _ _ _ F).
  - destruct (http_run net this ep opts s) as (s' & r & Hrun & _ & _ & Hn & Hd).
    rewrite Hrun. now split.
Qed.

Lemma http_writes_only_its_options_object_witness :
  let s := mkState ∅
             {[ 1%positive := Axios.empty;
                2%positive := Axios.set_params 9%positive Axios.empty ]}
             AXIOS_DEFAULTS Demo.clock [] in
  cfgs (fst (http (Demo.ok200 JNull) Demo.keyed ENDPOINTS.ACCOUNT
               (Some 1%positive) s)) !! 2%positive
  = Some (Axios.set_params 9%positive Axios.empty).
Proof.
  intros s.
  apply (proj1 (http_writes_only_its_options_object (Demo.ok200 JNull)
                  Demo.keyed ENDPOINTS.ACCOUNT (Some 1%positive) s)).
  - reflexivity.
  - discriminate.
Defined.

(* ------------------------------------------------------------------ *)
(** ** The endpoint methods                                            *)
(* ------------------------------------------------------------------ *)


Lemma deref_lookup (h : gmap loc obj) (l : loc) (o : obj) :
  h !! l = Some o -> deref h l = o.
Proof. intros H. apply (f_equal (default [])) in H. exact H. Qed.

Lemma bind_ret_map {A B} (m : M A) (f : A -> B) (s : state) :
  bind m (fun a => ret (f a)) s = (fst (m s), result_map f (snd (m s))).
Proof. unfold bind, ret. now destruct (m s) as [s1 [a|e]]. Qed.

(** The parameters of a signed call whose caller mapping [o] has no
    [timestamp] and no [signature]: [o], then [timestamp], then
    [signature]. *)
Lemma signed_inputs_shape this ep t o :
  Models.security ep = Models.SIGNED ->
  unique_keys o = true ->
  obj_get "timestamp" o = None ->
  obj_get "signature" o = None ->
  let stamped := (o ++ [("timestamp", VNum t)])%list in
  let sig := utils.getHmac (qstringify stamped)
               (default EmptyString (apisecret (options this))) in
  expected_inputs this ep t (obj_assign [] o)
  = (stamped ++ [("signature", VStr sig)])%list
  /\ qstringify (stamped ++ [("signature", VStr sig)])%list
     = qstringify stamped ++ "&signature=" ++ sig.
Proof.
  intros Hsig Hu Ht Hs stamped sig.
  unfold expected_inputs. rewrite decide_True by exact Hsig.
  rewrite (obj_assign_copy o Hu).
  destruct (stamp_and_sign_spec t
              (default EmptyString (apisecret (options this))) o Hs)
    as (-> & _).
  rewrite (obj_set_new "timestamp" (VNum t) o Ht).
  fold stamped. fold sig. split; [reflexivity|].
  rewrite qstringify_snoc by (unfold stamped; now destruct o).
  unfold Querystring.field, sig. cbn [fst snd Querystring.stringifyPrimitive].
  now rewrite getHmac_needs_no_escaping.
Qed.

(** X8: [order(data)] on a client with both credentials makes one POST
    request to the order endpoint, with the API key as its only header.
    When the order object has no [timestamp] and no [signature] field, the
    body is the order's fields in their order, then [timestamp], all
    serialised, then [&signature=] and the HMAC of exactly that serialised
    text; the order object itself is left as it was, and the method returns
    the response's data or throws what [http] throws. *)
Theorem order_wire_format net this data o s :
  truthy (apikey (options this)) = true ->
  truthy (apisecret (options this)) = true ->
  objs s !! data = Some o ->
  unique_keys o = true ->
  obj_get "timestamp" o = None ->
  obj_get "signature" o = None ->
  let run := order net this data s in
  let signed := qstringify (o ++ [("timestamp", VNum (now s))])%list in
  let sig := utils.getHmac signed
               (default EmptyString (apisecret (options this))) in
  exists w,
    wire (fst run) = (wire s ++ [w])%list
    /\ Axios.url (sent_config w) = Some "https://api.binance.com/api/v3/order"
    /\ Axios.method (sent_config w) = Some Models.POST
    /\ sent_headers w
       = [("X-MBX-APIKEY",
           VStr (default EmptyString (apikey (options this))))]
    /\ sent_data w = Some (Axios.BodyText (signed ++ "&signature=" ++ sig))
    /\ sent_params w = None
    /\ objs (fst run) !! data = Some o
    /\ snd run
       = result_map Axios.response_data
           (settle (net (sent_by w) (sent_config w) (sent_objs w))).
Proof.
  intros Hkey Hsec Hdata Hu Ht Hs run signed sig. subst run.
  unfold order. rewrite (bind_run (new_cfg _) _ s _ _ eq_refl).
  set (c := fresh (dom (cfgs s))).
  set (s1 := set_cfgs _ s). rewrite bind_ret_map.
  assert (Hg : given_options s1 (Some c)
               = Axios.set_data (Axios.BodyRef data) Axios.empty).
  { unfold given_options, s1, set_cfgs. cbn [cfgs].
    apply deref_cfg_insert_eq. }
  assert (Hok : credentials_ok this ENDPOINTS.ORDER = true).
  { unfold credentials_ok. cbn. now rewrite Hkey, Hsec. }
  assert (Ha : headers_allocated s1 (Some c) = true).
  { unfold headers_allocated. now rewrite Hg. }
  destruct (http_request_facts net this ENDPOINTS.ORDER (Some c) s1 Hok Ha)
    as (w & Hw & Hr & Hurl & Hm & Hh & Hc & Hf).
  cbn [fst snd]. exists w.
  assert (Hst : staged_inputs s1 (method_of ENDPOINTS.ORDER) (Some c)
                = obj_assign [] o).
  { unfold staged_inputs. rewrite Hg.
    change (method_of ENDPOINTS.ORDER) with Models.POST.
    rewrite decide_False by discriminate.
    cbn [Axios.data Axios.set_data props_of_body].
    unfold s1, set_cfgs. cbn [objs]. now rewrite (deref_lookup _ _ _ Hdata). }
  rewrite Hst in Hc.
  destruct (signed_inputs_shape this ENDPOINTS.ORDER (now s1) o eq_refl
              Hu Ht Hs) as [He Hq].
  rewrite He in Hc. destruct Hc as [Hd Hp]. rewrite Hq in Hd.
  split; [exact Hw|]. split; [exact Hurl|]. split; [exact Hm|].
  split.
  { rewrite Hh. unfold expected_headers, given_headers. now rewrite Hg. }
  split; [exact Hd|]. split; [exact Hp|].
  split; [|now rewrite Hr].
  apply Hf; [exact Hdata|]. right. rewrite Hg. discriminate.
Qed.

Lemma order_wire_format_witness :
  exists w,
    wire (fst (order (Demo.ok200 JNull) Demo.keyed 1%positive
                 Scenario.order_start)) = [w]
    /\ sent_data w
       = Some (Axios.BodyText
                 (("symbol=BTCETH&side=BUY&type=LIMIT&timeInForce=GTC"
                   ++ "&quantity=1.43&price=0.05&timestamp=1499827319559")
                  ++ "&signature="
                  ++ utils.getHmac
                       ("symbol=BTCETH&side=BUY&type=LIMIT&timeInForce=GTC"
                        ++ "&quantity=1.43&price=0.05&timestamp=1499827319559")
                       "an-api-secret")).
Proof.
  destruct (order_wire_format (Demo.ok200 JNull) Demo.keyed 1%positive
              [("symbol", VStr "BTCETH"); ("side", VStr "BUY");
               ("type", VStr "LIMIT"); ("timeInForce", VStr "GTC");
               ("quantity", VStr "1.43"); ("price", VStr "0.05")]
              Scenario.order_start
              eq_refl eq_refl eq_refl eq_refl eq_refl eq_refl)
    as (w & Hw & _ & _ & _ & Hd & _).
  exists w. split; [exact Hw|exact Hd].
Defined.

Lemma http_plain_get net this ep s :
  Models.security ep = Models.NONE ->
  Models.method ep = None ->
  plain_get net ep s
    (bind (http net this ep None) (fun r => ret (Axios.response_data r)) s).
Proof.
  intros Hsec Hm. rewrite bind_ret_map. unfold plain_get. cbn [fst snd].
  assert (Hok : credentials_ok this ep = true).
  { unfold credentials_ok. now rewrite Hsec. }
  destruct (http_request_facts net this ep None s Hok eq_refl)
    as (w & Hw & Hr & Hurl & Hmeth & Hh & Hc & _).
  assert (Hget : method_of ep = Models.GET).
  { unfold method_of. now rewrite Hm. }
  rewrite Hget in Hmeth, Hc.
  unfold expected_headers in Hh. rewrite decide_True in Hh by exact Hsec.
  unfold expected_inputs in Hc. rewrite decide_False in Hc by congruence.
  destruct Hc as [Hp Hd].
  exists w. now rewrite Hr.
Qed.

(** X9: [pingServer], [getServerTime] and [getAllPrices] work on any
    client, with or without credentials: each makes exactly one GET request,
    to [/v1/ping], [/v1/time] and [/v1/ticker/allPrices] under the API base,
    with no header and no parameter, and returns the data of the response
    (or throws what [http] makes of the response). *)
Theorem public_methods_are_plain_gets net this s :
  plain_get net ENDPOINTS.PING s (pingServer net this s)
  /\ plain_get net ENDPOINTS.TIME s (getServerTime net this s)
  /\ plain_get net ENDPOINTS.ALLPRICES s (getAllPrices net this s).
Proof.
  split; [|split]; now apply http_plain_get.
Qed.

(** A SIGNED call through an options object made for it. *)
Lemma signed_call_refused net this ep c0 s :
  Models.security ep = Models.SIGNED ->
  Axios.headers c0 = None ->
  truthy (apikey (options this)) && truthy (apisecret (options this)) = false ->
  refused this s
    (bind (http net this ep (Some (fresh (dom (cfgs s)))))
          (fun r => ret (Axios.response_data r))
          (set_cfgs <[fresh (dom (cfgs s)) := c0]> s)).
Proof.
  intros Hsig Hh Hcred. rewrite bind_ret_map. cbn [fst snd].
  set (c := fresh (dom (cfgs s))). set (s1 := set_cfgs _ s).
  assert (Hg : given_options s1 (Some c) = c0).
  { unfold given_options, s1, set_cfgs. cbn [cfgs].
    apply deref_cfg_insert_eq. }
  assert (Hsec : Models.security ep <> Models.NONE) by congruence.
  destruct (http_run net this ep (Some c) s1)
    as (s' & r & Hrun & _ & Hf & _).
  assert (Hframe : forall l x,
             objs s !! l = Some x ->
             objs (fst (http net this ep (Some c) s1)) !! l = Some x).
  { intros l x Hl. rewrite Hrun. apply Hf; [exact Hl|].
    right. rewrite Hg, Hh. discriminate. }
  unfold refused. destruct (truthy (apikey (options this))) eqn:Hkey.
  - cbn [andb] in Hcred.
    destruct (http_without_apisecret net this ep (Some c) s1 Hsig Hkey)
      as (s3 & Hw & H).
    specialize (H this eq_refl Hcred). rewrite H in *. cbn [fst snd].
    unfold apisecret_message. rewrite Hsig.
    split; [exact Hw|]. split; [reflexivity|exact Hframe].
  - destruct (http_without_apikey net this ep (Some c) s1 Hsec Hkey)
      as (s2 & Hw & H).
    specialize (H this Hkey). rewrite H in *. cbn [fst snd].
    unfold apikey_message. rewrite Hsig.
    split; [exact Hw|]. split; [reflexivity|exact Hframe].
Qed.

(** X10: on a client that lacks the API key or the secret, [order],
    [getAllAccountOrders] and [getAccountInformation] make no request at
    all: they throw [MissingCredentialsError], naming [opts.apikey] when the
    key is missing and [opts.apisecret] otherwise, and leave every object
    of the caller's as it was. *)
Theorem signed_methods_need_both_credentials net this s data opts params :
  truthy (apikey (options this)) && truthy (apisecret (options this)) = false ->
  refused this s (order net this data s)
  /\ refused this s (getAllAccountOrders net this opts s)
  /\ refused this s (getAccountInformation net this params s).
Proof.
  intros Hcred.
  unfold order, getAllAccountOrders, getAccountInformation.
  rewrite !(bind_run (new_cfg _) _ s _ _ eq_refl).
  split; [|split]; apply signed_call_refused; try reflexivity; try exact Hcred.
  now destruct params.
Qed.

Lemma signed_methods_need_both_credentials_witness :
  snd (order (Demo.ok200 JNull) Demo.anonymous 1%positive Scenario.order_start)
  = Throw (Errors.MissingCredentialsError
             "SIGNED HTTP endpoints require opts.apikey to be provided")
  /\ wire (fst (getAccountInformation (Demo.ok200 JNull)
                  (with_apisecret None Demo.keyed) None
                  (module_loaded Demo.clock))) = [].
Proof.
  split.
  - apply (proj1 (signed_methods_need_both_credentials (Demo.ok200 JNull)
                    Demo.anonymous Scenario.order_start 1%positive 1%positive
                    None eq_refl)).
  - apply (proj2 (proj2 (signed_methods_need_both_credentials
                    (Demo.ok200 JNull) (with_apisecret None Demo.keyed)
                    (module_loaded Demo.clock) 1%positive 1%positive None
                    eq_refl))).
Defined.




(* ------------------------------------------------------------------ *)
(** ** [getOrderBook], any payload                                     *)
(* ------------------------------------------------------------------ *)

Lemma map_entries_spec (items : list json) :
  map_entries items
  = if existsb is_null items then Throw Errors.TypeError
    else Ok (List.map entry_of items).
Proof.
  induction items as [|e items IH]; [reflexivity|].
  cbn [map_entries existsb List.map]. rewrite IH.
  destruct e; cbn [reshape_entry is_null orb]; try reflexivity;
    now destruct (existsb is_null items).
Qed.

Lemma reshape_order_book_spec (j : json) :
  reshape_order_book j
  = match json_prop "bids" j, json_prop "asks" j with
    | Some (JArr bids), Some (JArr asks) =>
        if existsb is_null (bids ++ asks) then Throw Errors.TypeError
        else Ok (Models.mkOrderBook (json_prop "lastUpdateId" j)
                   (List.map entry_of bids) (List.map entry_of asks))
    | _, _ => Throw Errors.TypeError
    end.
Proof.
  unfold reshape_order_book.
  destruct j; try reflexivity.
  destruct (json_prop "bids" (JObj fields)) as [[| | | |bids|]|];
    cbn [map_side]; try reflexivity.
  destruct (json_prop "asks" (JObj fields)) as [[| | | |asks|]|];
    cbn [map_side]; rewrite ?map_entries_spec, ?existsb_app;
    destruct (existsb is_null bids); cbn [orb]; try reflexivity.
  now destruct (existsb is_null asks).
Qed.

(** X12: [getOrderBook(symbol, limit)] needs no credentials and makes one
    GET request to [/v1/depth] under the API base, without headers, whose
    parameters are [symbol] and [limit] in that order ([limit] being
    [undefined] when it was not given). *)
Theorem getOrderBook_request net this symbol limit s :
  exists w,
    wire (fst (getOrderBook net this symbol limit s)) = (wire s ++ [w])%list
    /\ Axios.url (sent_config w) = Some "https://api.binance.com/api/v1/depth"
    /\ Axios.method (sent_config w) = Some Models.GET
    /\ sent_headers w = []
    /\ sent_params w
       = Some [("symbol", VStr symbol); ("limit", optional_number limit)]
    /\ sent_data w = None.
Proof.
  unfold getOrderBook.
  rewrite (bind_run (new_obj _) _ s _ _ eq_refl).
  rewrite (bind_run (new_cfg _) _ _ _ _ eq_refl).
  set (p := fresh (dom (objs s))).
  set (s1 := set_objs _ s). set (c := fresh (dom (cfgs s1))).
  set (s2 := set_cfgs _ s1).
  assert (Hg : given_options s2 (Some c) = Axios.set_params p Axios.empty).
  { unfold given_options, s2, set_cfgs. cbn [cfgs].
    apply deref_cfg_insert_eq. }
  assert (Ha : headers_allocated s2 (Some c) = true).
  { unfold headers_allocated. now rewrite Hg. }
  destruct (http_request_facts net this ENDPOINTS.ORDERBOOK (Some c) s2
              eq_refl Ha)
    as (w & Hw & Hr & Hurl & Hmeth & Hh & Hc & _).
  exists w. split.
  { unfold bind.
    destruct (http net this ENDPOINTS.ORDERBOOK (Some c) s2) as [s3 [r|e]];
      exact Hw. }
  split; [exact Hurl|]. split; [exact Hmeth|].
  split.
  { rewrite Hh. unfold expected_headers, given_headers. now rewrite Hg. }
  assert (Hst : staged_inputs s2 (method_of ENDPOINTS.ORDERBOOK) (Some c)
                = [("symbol", VStr symbol); ("limit", optional_number limit)]).
  { unfold staged_inputs. rewrite Hg.
    change (method_of ENDPOINTS.ORDERBOOK) with Models.GET.
    rewrite decide_True by reflexivity.
    cbn [Axios.params Axios.set_params props_of_ref].
    unfold s2, s1, set_cfgs, set_objs. cbn [objs].
    now rewrite deref_insert_eq. }
  unfold expected_inputs in Hc. rewrite decide_False in Hc by discriminate.
  rewrite Hst in Hc. exact Hc.
Qed.

(** X13: what [getOrderBook] returns for any response.  An error of
    [http] (a status in 400-599, a transport failure) is thrown on as it is.
    For a response that [http] returns, the result is built only when its
    [bids] and [asks] are arrays without [null] entries: each entry gives
    [{price: entry[0], quantity: entry[1]}], in order, a missing element
    giving [undefined], and [lastUpdateId] is copied (or [undefined]); any
    other payload makes the method throw a [TypeError]. *)
Theorem getOrderBook_outcomes net this symbol limit s :
  let run := getOrderBook net this symbol limit s in
  exists w,
    wire (fst run) = (wire s ++ [w])%list
    /\ match settle (net (sent_by w) (sent_config w) (sent_objs w)) with
       | Throw e => snd run = Throw e
       | Ok resp =>
           let j := Axios.response_data resp in
           match json_prop "bids" j, json_prop "asks" j with
           | Some (JArr bids), Some (JArr asks) =>
               if existsb is_null (bids ++ asks)
               then snd run = Throw Errors.TypeError
               else snd run
                    = Ok (Models.mkOrderBook (json_prop "lastUpdateId" j)
                            (List.map entry_of bids) (List.map entry_of asks))
           | _, _ => snd run = Throw Errors.TypeError
           end
       end.
Proof.
  cbv zeta. unfold getOrderBook.
  rewrite (bind_run (new_obj _) _ s _ _ eq_refl).
  rewrite (bind_run (new_cfg _) _ _ _ _ eq_refl).
  set (s2 := set_cfgs _ _). set (c := fresh _).
  destruct (http_sends net this ENDPOINTS.ORDERBOOK (Some c) s2
              (or_introl eq_refl) ltac:(discriminate))
    as (w & Hw & Hr & _).
  unfold bind.
  destruct (http net this ENDPOINTS.ORDERBOOK (Some c) s2) as [s3 r] eqn:Hrun.
  cbn [fst snd] in Hw, Hr. exists w. split.
  - destruct r; cbn [fst lift]; exact Hw.
  - rewrite <- Hr. destruct r as [resp|e]; [|reflexivity].
    cbn [lift snd]. rewrite reshape_order_book_spec.
    destruct (json_prop "bids" (Axios.response_data resp))
      as [[| | | |bids|]|]; try reflexivity.
    destruct (json_prop "asks" (Axios.response_data resp))
      as [[| | | |asks|]|]; try reflexivity.
    now destruct (existsb is_null (bids ++ asks)).
Qed.

(* ------------------------------------------------------------------ *)
(** ** Construction, any number of clients                             *)
(* ------------------------------------------------------------------ *)

Lemma new_RestClient_timeout (o : option RestClientOptions) (s : state) :
  Axios.timeout (axios_defaults (fst (new_RestClient o s)))
  = Axios.override (Axios.timeout (axios_defaults s)) (timeout_override o)
  /\ Axios.timeout <$> effective_config (snd (new_RestClient o s))
     = Some (Axios.override (Axios.timeout (axios_defaults s))
               (timeout_override o)).
Proof.
  destruct o as [[k sec [c|]]|]; split; reflexivity.
Qed.

Lemma omap_cons_eq {A B} (f : A -> option B) (x : A) (l : list A) :
  omap f (x :: l)
  = match f x with
    | Some y => y :: omap f l
    | None => omap f l
    end.
Proof. reflexivity. Qed.

Lemma construct_many_timeout (l : list (option RestClientOptions)) :
  forall s,
    Axios.timeout (axios_defaults (construct_many l s))
    = match latest_timeout l with
      | Some t => Some t
      | None => Axios.timeout (axios_defaults s)
      end.
Proof.
  unfold construct_many, latest_timeout.
  induction l as [|o l IH]; intros s; [reflexivity|].
  cbn [fold_left]. rewrite IH.
  destruct (new_RestClient_timeout o s) as [-> _].
  rewrite omap_cons_eq.
  destruct (timeout_override o) as [t|]; cbn [Axios.override].
  - rewrite last_cons. now destruct (last (omap timeout_override l)).
  - reflexivity.
Qed.

(** X14: the [timeout] property of the configuration a new client works
    with is that of its own [axiosOptions] when they have the property, be
    its value a number or [undefined]; otherwise it is that of the most
    recent earlier client whose [axiosOptions] had it; and it is 15000
    only if no client constructed since the module was loaded had it. *)
Theorem timeout_is_the_latest_override
    (earlier : list (option RestClientOptions))
    (mine : option RestClientOptions) (clock : Z) :
  Axios.timeout
    <$> effective_config
          (snd (new_RestClient mine
                  (construct_many earlier (module_loaded clock))))
  = Some (Some (default (Axios.number 15000)
                  (latest_timeout (earlier ++ [mine])))).
Proof.
  destruct (new_RestClient_timeout mine
              (construct_many earlier (module_loaded clock))) as [_ ->].
  rewrite construct_many_timeout. unfold latest_timeout.
  rewrite omap_app, omap_cons_eq.
  destruct (timeout_override mine) as [t|]; cbn [Axios.override omap].
  - change (list_omap _ _ timeout_override []) with (@nil Axios.setting).
    now rewrite last_snoc.
  - change (list_omap _ _ timeout_override []) with (@nil Axios.setting).
    rewrite app_nil_r.
    now destruct (last (omap timeout_override earlier)).
Qed.

Example undefined_timeout_is_copied :
  Axios.timeout
    <$> effective_config
          (snd (new_RestClient None
                  (construct_many [Some untimed] (module_loaded Demo.clock))))
  = Some (Some Axios.undefined).
Proof. reflexivity. Qed.

(* ------------------------------------------------------------------ *)
(** ** Rendering of errors                                             *)
(* ------------------------------------------------------------------ *)

Lemma prefix_app (a b : string) : String.prefix a (a ++ b) = true.
Proof.
  induction a as [|c a IH]; [now destruct b|].
  rewrite string_app_cons. cbn [String.prefix].
  destruct (ascii_dec c c); [exact IH|congruence].
Qed.

Lemma prefix_refl (a : string) : String.prefix a a = true.
Proof.
  induction a as [|c a IH]; [reflexivity|]. cbn [String.prefix].
  destruct (ascii_dec c c); [exact IH|congruence].
Qed.

Lemma prefix_render (name message : string) :
  name <> EmptyString -> String.prefix name (Errors.render name message) = true.
Proof.
  intros Hn. unfold Errors.render.
  destruct message; [destruct name; apply prefix_refl|].
  destruct name; [congruence|apply prefix_app].
Qed.

(** X15: every error of [errors.ts] renders with its class name first,
    and the class names are told apart by [name]: the five classes have
    five different names, none of them the runtime's [TypeError].  The
    rendering of the three classes with a status shows the status text and
    code and does not depend on the response body. *)
Theorem errors_render_with_their_name (e : Errors.t) :
  String.prefix (Errors.name e) (Errors.toString e) = true
  /\ (forall e', Errors.name e' = Errors.name e ->
        match e, e' with
        | Errors.HttpError _ _, Errors.HttpError _ _
        | Errors.MalformedRequestError _ _ _, Errors.MalformedRequestError _ _ _
        | Errors.RequestResultUnknownError _ _ _,
          Errors.RequestResultUnknownError _ _ _
        | Errors.MissingCredentialsError _, Errors.MissingCredentialsError _
        | Errors.InternalRequestError _ _ _, Errors.InternalRequestError _ _ _
        | Errors.TypeError, Errors.TypeError => True
        | _, _ => False
        end)
  /\ (forall body body' txt st,
        Errors.toString (Errors.MalformedRequestError body txt st)
        = Errors.toString (Errors.MalformedRequestError body' txt st)
        /\ Errors.toString (Errors.RequestResultUnknownError body txt st)
           = Errors.toString (Errors.RequestResultUnknownError body' txt st)
        /\ Errors.toString (Errors.InternalRequestError body txt st)
           = Errors.toString (Errors.InternalRequestError body' txt st)).
Proof.
  split; [|split].
  - destruct e; cbn [Errors.toString];
      try apply prefix_app; try apply prefix_refl;
      apply prefix_render; discriminate.
  - intros e' H. destruct e, e'; try exact I; discriminate.
  - intros. now repeat split.
Qed.

Lemma errors_render_with_their_name_witness :
  Errors.toString
    (Errors.MalformedRequestError Scenario.sample_error "null" 406)
  = "BinanceMalformedRequestError: Binance rejected request for formatting reasons."
    ++ " Status code 406. Status text " ++ Errors.quote ++ "null"
    ++ Errors.quote
  /\ String.prefix "BinanceMalformedRequestError"
       (Errors.toString
          (Errors.MalformedRequestError Scenario.sample_error "null" 406))
     = true.
Proof.
  split; [reflexivity|].
  apply (proj1 (errors_render_with_their_name
                  (Errors.MalformedRequestError Scenario.sample_error
                     "null" 406))).
Defined.

(* ------------------------------------------------------------------ *)
(** ** Headers, timestamp and the options object after a call          *)
(* ------------------------------------------------------------------ *)


(** X16: on an endpoint that is not public, the request's [X-MBX-APIKEY]
    header is the configured key even when the caller's headers already had
    one, and every other header of the caller's is sent as it was; on a
    public endpoint the caller's headers are sent untouched. *)
Theorem caller_headers_are_kept net this ep opts s :
  credentials_ok this ep = true ->
  headers_allocated s opts = true ->
  exists w,
    wire (fst (http net this ep opts s)) = (wire s ++ [w])%list
    /\ (Models.security ep = Models.NONE ->
        sent_headers w = given_headers s opts)
    /\ (Models.security ep <> Models.NONE ->
        obj_get "X-MBX-APIKEY" (sent_headers w)
        = Some (VStr (default EmptyString (apikey (options this))))
        /\ forall k, k <> "X-MBX-APIKEY" ->
             obj_get k (sent_headers w) = obj_get k (given_headers s opts)).
Proof.
  intros Hok Ha.
  destruct (http_request_facts net this ep opts s Hok Ha)
    as (w & Hw & _ & _ & _ & Hh & _).
  exists w. split; [exact Hw|]. unfold expected_headers in Hh. split.
  - intros Hsec. now rewrite decide_True in Hh by exact Hsec.
  - intros Hsec. rewrite decide_False in Hh by exact Hsec. rewrite Hh. split.
    + apply obj_get_set_eq.
    + intros k Hk. apply obj_get_set_ne. congruence.
Qed.

Lemma caller_headers_are_kept_witness :
  let s := mkState {[ 7%positive := [("X-MBX-APIKEY", VStr "stale");
                                     ("Accept", VStr "application/json")] ]}
             {[ 1%positive :=
                  Axios.mkConfig None None (Some 7%positive) None None
                                 None None [] ]}
             AXIOS_DEFAULTS Demo.clock [] in
  exists w,
    wire (fst (http (Demo.ok200 JNull) Demo.keyed ENDPOINTS.ACCOUNT
                 (Some 1%positive) s)) = [w]
    /\ obj_get "X-MBX-APIKEY" (sent_headers w) = Some (VStr "an-api-key")
    /\ obj_get "Accept" (sent_headers w) = Some (VStr "application/json").
Proof.
  intros s.
  destruct (caller_headers_are_kept (Demo.ok200 JNull) Demo.keyed
              ENDPOINTS.ACCOUNT (Some 1%positive) s eq_refl eq_refl)
    as (w & Hw & _ & H).
  destruct (H ltac:(discriminate)) as [Hk Ho].
  exists w. split; [exact Hw|]. split; [exact Hk|].
  rewrite Ho by discriminate. reflexivity.
Defined.

(** X17: on a signed call the caller cannot choose the timestamp or the
    signature: whatever the caller's parameters hold under these two keys,
    the parameters sent have the clock's reading as [timestamp] and a
    64-digit digest as [signature], and under every other key exactly what
    the working copy of the caller's parameters has. *)
Theorem timestamp_and_signature_are_the_clients net this ep opts s :
  Models.security ep = Models.SIGNED ->
  truthy (apikey (options this)) = true ->
  truthy (apisecret (options this)) = true ->
  headers_allocated s opts = true ->
  exists w inputs sig,
    wire (fst (http net this ep opts s)) = (wire s ++ [w])%list
    /\ carries w (method_of ep) inputs
    /\ obj_get "timestamp" inputs = Some (VNum (now s))
    /\ obj_get "signature" inputs = Some (VStr sig)
    /\ String.length sig = 64%nat
    /\ forall k, k <> "timestamp" -> k <> "signature" ->
         obj_get k inputs
         = obj_get k (staged_inputs s (method_of ep) opts).
Proof.
  intros Hsig Hkey Hsec Ha.
  assert (Hok : credentials_ok this ep = true).
  { unfold credentials_ok. now rewrite Hsig, Hkey, Hsec. }
  destruct (http_request_facts net this ep opts s Hok Ha)
    as (w & Hw & _ & _ & _ & _ & Hc & _).
  unfold expected_inputs in Hc. rewrite decide_True in Hc by exact Hsig.
  eexists w, _, _. split; [exact Hw|]. split; [exact Hc|].
  unfold stamp_and_sign. split; [|split; [|split]].
  - rewrite obj_get_set_ne by discriminate. apply obj_get_set_eq.
  - apply obj_get_set_eq.
  - apply getHmac_length.
  - intros k Ht Hs. now rewrite !obj_get_set_ne by congruence.
Qed.

Lemma timestamp_and_signature_are_the_clients_witness :
  let s := mkState {[ 1%positive := [("timestamp", VNum 1);
                                     ("symbol", VStr "LTCBTC")] ]}
             {[ 1%positive := Axios.set_params 1%positive Axios.empty ]}
             AXIOS_DEFAULTS Demo.clock [] in
  exists w inputs,
    wire (fst (http (Demo.ok200 JNull) Demo.keyed ENDPOINTS.ALLORDERS
                 (Some 1%positive) s)) = [w]
    /\ carries w Models.GET inputs
    /\ obj_get "timestamp" inputs = Some (VNum Demo.clock)
    /\ obj_get "symbol" inputs = Some (VStr "LTCBTC").
Proof.
  intros s.
  destruct (timestamp_and_signature_are_the_clients (Demo.ok200 JNull)
              Demo.keyed ENDPOINTS.ALLORDERS (Some 1%positive) s
              eq_refl eq_refl eq_refl eq_refl)
    as (w & inputs & sig & Hw & Hc & Ht & _ & _ & Ho).
  exists w, inputs. split; [exact Hw|]. split; [exact Hc|].
  split; [exact Ht|]. rewrite Ho by discriminate. reflexivity.
Defined.

(** X18: after a call that made a request, the options object given is
    that request's options, so using it again starts from what was sent:
    on a GET endpoint its [params] is the mapping that was sent (timestamp
    and signature included), and on any other its [data] is the body text,
    which a further call would take apart character by character. *)
Theorem reused_options_hold_what_was_sent net this ep l s w :
  let s' := fst (http net this ep (Some l) s) in
  wire s' = (wire s ++ [w])%list ->
  given_options s' (Some l) = sent_config w
  /\ if decide (method_of ep = Models.GET)
     then sent_params w = Some (caller_params s' Models.GET (Some l))
     else exists text,
         sent_data w = Some (Axios.BodyText text)
         /\ caller_params s' (method_of ep) (Some l) = explode text.
Proof.
  cbv zeta.
  destruct (http_tail_cases net this ep (Some l) s)
    as (s2 & o & h & i & s' & r & _ & F & Hrun & [H|H]); rewrite Hrun;
    cbn [fst].
  - destruct H as (_ & _ & Hw & _). intros Hw'. rewrite Hw in Hw'.
    now apply app_one_not_nil in Hw'.
  - destruct H as (_ & c & Hc & Hcfg & Hw & _). intros Hw'.
    rewrite Hw in Hw'. apply app_inj_tail in Hw' as [_ <-].
    rewrite (st_opts _ _ _ _ _ _ _ F l eq_refl) in Hcfg.
    assert (Hg : given_options s' (Some l) = c).
    { unfold given_options. rewrite Hcfg. apply deref_cfg_insert_eq. }
    split; [exact Hg|].
    unfold caller_params, sent_params, sent_data.
    cbn [sent_config sent_objs]. rewrite Hg.
    destruct (decide (method_of ep = Models.GET)) as [Hm|Hm].
    + rewrite decide_True by reflexivity. subst c. rewrite Hm.
      now destruct (request_config_GET ep h i (deref (objs s') i)
                      (Axios.delete_params
                         (Axios.delete_data (given_options s (Some l)))))
        as [-> _].
    + subst c.
      destruct (request_config_body ep (method_of ep) h i (deref (objs s') i)
                  (Axios.delete_params
                     (Axios.delete_data (given_options s (Some l)))) Hm)
        as [-> _].
      eauto.
Qed.

Lemma reused_options_hold_what_was_sent_witness :
  wire Scenario.reuse_first = [Scenario.only_request Scenario.reuse_first]
  /\ sent_params (Scenario.only_request Scenario.reuse_first)
     = Some (caller_params Scenario.reuse_first Models.GET (Some 1%positive))
  /\ obj_get "timestamp"
       (caller_params Scenario.reuse_first Models.GET (Some 1%positive))
     = Some (VNum Demo.clock).
Proof.
  assert (Hw : wire Scenario.reuse_first
               = ([] ++ [Scenario.only_request Scenario.reuse_first])%list)
    by (vm_compute; reflexivity).
  split; [exact Hw|]. split.
  - exact (proj2 (reused_options_hold_what_was_sent (Demo.ok200 (JArr []))
                    Demo.keyed ENDPOINTS.ALLORDERS 1%positive
                    Scenario.reuse_start _ Hw)).
  - vm_compute. reflexivity.
Defined.
